(** * LdapCherry: the Active Directory backend and the role catalog

    A shallow embedding of [ldapcherry/backend/backendAD.py] (Python 3
    reading) together with the properties its specification states.

    Python values are modelled as follows.
    - [str] is a list of Unicode code points ([pystr]); the literals of the
      source are written [u"..."].
    - [bytes] is a list of octets ([bytes]).
    - a [dict] from [str] to [str] is a [gmap pystr pystr]; dictionaries are
      objects, so they live in a heap and are passed by reference ([loc]).
    - an exception is a value of [exn]; a method that can raise, touch the
      heap or talk to the directory server is a computation in [M].
    - everything that is inherited from [ldapcherry.backend.backendLdap] or
      comes from [python-ldap] is outside this file: pure helpers are
      fields of the class [Base], calls that reach the outside world are
      recorded in a trace and answered by an arbitrary [environment].
    - the role loader [ldapcherry/roles.py] is not among the sources; its
      load pass is modelled from the specification ([load_roles]). *)

From Stdlib Require Import ZArith NArith List String Ascii Lia.
From stdpp Require Import gmap list.

Set Default Proof Using "Type".
Local Open Scope N_scope.

(* ------------------------------------------------------------------ *)
(** ** Strings and bytes *)

Abbreviation pystr := (list N).
Abbreviation bytes := (list N).

(** A source literal (ASCII) as a Python string. *)
Definition u (s : string) : pystr := N_of_ascii <$> list_ascii_of_string s.

(** Code points a Python [str] can hold. *)
Definition is_code_point (c : N) : Prop := c <= 0x10FFFF.
Definition is_surrogate (c : N) : bool := (0xD800 <=? c) && (c <=? 0xDFFF).

Inductive ldap_error :=
| INVALID_CREDENTIALS
| SERVER_DOWN
| TIMEOUT
| NO_SUCH_OBJECT
| OTHER_LDAP_ERROR (code : N).

Inductive exn :=
| MissingAttr
| KeyError (k : pystr)
| IndexError
| TypeError
| UnicodeEncodeError
| UnboundLocalError
| ValueError
| LDAPError (e : ldap_error)
| OtherError (tag : N).

Global Instance ldap_error_eq_dec : EqDecision ldap_error.
Proof. solve_decision. Defined.
Global Instance exn_eq_dec : EqDecision exn.
Proof. solve_decision. Defined.

(** One 16-bit code unit, low byte first. *)
Definition utf16_unit_le (w : N) : bytes := [N.land w 0xFF; N.shiftr w 8].

(** [c.encode('utf-16-le')] for one code point, [None] where the strict
    error handler raises. *)
Definition utf16_le_code_point (c : N) : option bytes :=
  if c <? 0x10000 then
    if is_surrogate c then None else Some (utf16_unit_le c)
  else if c <=? 0x10FFFF then
    let c' := c - 0x10000 in
    Some (utf16_unit_le (0xD800 + N.shiftr c' 10) ++
          utf16_unit_le (0xDC00 + N.land c' 0x3FF))
  else None.

(** [s.encode('utf-16-le')]. *)
Fixpoint encode_utf_16_le (s : pystr) : exn + bytes :=
  match s with
  | [] => inr []
  | c :: s' =>
      match utf16_le_code_point c with
      | None => inl UnicodeEncodeError
      | Some b =>
          match encode_utf_16_le s' with
          | inl e => inl e
          | inr bs => inr (b ++ bs)
          end
      end
  end.

(** [b.decode('utf-16-le')], strict: the inverse the directory server
    applies to the value it receives. *)
Fixpoint decode_utf_16_le (b : bytes) : option pystr :=
  match b with
  | [] => Some []
  | lo :: hi :: b' =>
      let w := lo + 256 * hi in
      if (0xD800 <=? w) && (w <=? 0xDBFF) then
        match b' with
        | lo2 :: hi2 :: b'' =>
            let w2 := lo2 + 256 * hi2 in
            if (0xDC00 <=? w2) && (w2 <=? 0xDFFF) then
              cons (0x10000 + 1024 * (w - 0xD800) + (w2 - 0xDC00))
                <$> decode_utf_16_le b''
            else None
        | _ => None
        end
      else if is_surrogate w then None
      else cons w <$> decode_utf_16_le b'
  | _ => None
  end.

(** [re.sub(r'\.', repl, s)]: every full stop is replaced by [repl]. *)
Fixpoint re_sub_dot (repl s : pystr) : pystr :=
  match s with
  | [] => []
  | c :: s' => if c =? 46 then repl ++ re_sub_dot repl s'
               else c :: re_sub_dot repl s'
  end.

(** [s.split(".")]: the (never empty) list of fields between full stops. *)
Fixpoint split_dot (s : pystr) : list pystr :=
  match s with
  | [] => [[]]
  | c :: s' =>
      if c =? 46 then [] :: split_dot s'
      else match split_dot s' with
           | [] => [[c]]
           | f :: fs => (c :: f) :: fs
           end
  end.

(** [sep.join(parts)]. *)
Fixpoint join (sep : pystr) (parts : list pystr) : pystr :=
  match parts with
  | [] => []
  | [p] => p
  | p :: ps => p ++ sep ++ join sep ps
  end.

(** [str(n)] for a non-negative integer, as ASCII digits. *)
Fixpoint decimal_digits (fuel : nat) (n : N) (acc : pystr) : pystr :=
  match fuel with
  | O => acc
  | S fuel' =>
      let acc' := (48 + n mod 10) :: acc in
      if n <? 10 then acc' else decimal_digits fuel' (n / 10) acc'
  end.
Definition str_of_N (n : N) : pystr := decimal_digits (S (N.to_nat (N.log2 n))) n [].

(* ------------------------------------------------------------------ *)
(** ** Module constants *)

Definition NO_ATTR : Z := 0.
Definition DISPLAYED_ATTRS : Z := 1.
Definition LISTED_ATTRS : Z := 2.
Definition ALL_ATTRS : Z := 3.

(** UserAccountControl flag values. *)
Definition SCRIPT := 0x0001.
Definition ACCOUNTDISABLE := 0x0002.
Definition HOMEDIR_REQUIRED := 0x0008.
Definition LOCKOUT := 0x0010.
Definition PASSWD_NOTREQD := 0x0020.
Definition PASSWD_CANT_CHANGE := 0x0040.
Definition ENCRYPTED_TEXT_PWD_ALLOWED := 0x0080.
Definition TEMP_DUPLICATE_ACCOUNT := 0x0100.
Definition NORMAL_ACCOUNT := 0x0200.
Definition INTERDOMAIN_TRUST_ACCOUNT := 0x0800.
Definition WORKSTATION_TRUST_ACCOUNT := 0x1000.
Definition SERVER_TRUST_ACCOUNT := 0x2000.
Definition DONT_EXPIRE_PASSWORD := 0x10000.
Definition MNS_LOGON_ACCOUNT := 0x20000.
Definition SMARTCARD_REQUIRED := 0x40000.
Definition TRUSTED_FOR_DELEGATION := 0x80000.
Definition NOT_DELEGATED := 0x100000.
Definition USE_DES_KEY_ONLY := 0x200000.
Definition DONT_REQ_PREAUTH := 0x400000.
Definition PASSWORD_EXPIRED := 0x800000.
Definition TRUSTED_TO_AUTH_FOR_DELEGATION := 0x1000000.
Definition PARTIAL_SECRETS_ACCOUNT := 0x04000000.

Definition AD_BUILTIN_GROUPS : list pystr := [
  u"Pre-Windows 2000 Compatible Access";
  u"Windows Authorization Access Group";
  u"Certificate Service DCOM Access";
  u"Network Configuration Operators";
  u"Terminal Server License Servers";
  u"Incoming Forest Trust Builders";
  u"Performance Monitor Users";
  u"Cryptographic Operators";
  u"Distributed COM Users";
  u"Performance Log Users";
  u"Remote Desktop Users";
  u"Account Operators";
  u"Event Log Readers";
  u"Backup Operators";
  u"Server Operators";
  u"Print Operators";
  u"Administrators";
  u"Replicator";
  u"IIS_IUSRS";
  u"Guests";
  u"Users"
].

(** [ldap.MOD_REPLACE] and [ldap.SCOPE_SUBTREE] of python-ldap. *)
Definition MOD_REPLACE : Z := 2.
Definition SCOPE_SUBTREE : Z := 2.

(* ------------------------------------------------------------------ *)
(** ** The world outside the adapter *)

Abbreviation client := nat.
Abbreviation loc := nat.
Abbreviation dict := (gmap (list N) (list N)).

(** One element of a python-ldap modification list:
    [(mod_op, attribute, values)]. *)
Abbreviation modification := (Z * list N * list (list N))%type.

(** One element of a [search_s] result: [(dn, {attribute: values})]. *)
Abbreviation entry := (list N * gmap (list N) (list (list N)))%type.

(** Values a configuration parameter can take. *)
Inductive pyval :=
| VStr (s : pystr)
| VInt (z : Z)
| VBool (b : bool)
| VNone.

(** The calls that leave the adapter: methods of the python-ldap client
    object, and methods inherited from the generic LDAP backend. *)
Inductive call :=
| Call_bind                                   (* self._bind() *)
| Call_connect                                (* self._connect() *)
| Call_simple_bind_s (c : client) (who cred : pystr)
| Call_search_s (c : client) (base : pystr) (scope : Z)
                (filterstr : pystr) (attrlist : list pystr)
| Call_modify_s (c : client) (dn : pystr) (ml : list modification)
| Call_delete_s (c : client) (dn : pystr)
| Call_unbind_s (c : client)
| Call_get_user (username : pystr) (attrs : Z)   (* self._get_user *)
| Call_exception_handler (e : exn)               (* self._exception_handler *)
| Call_logger (severity : Z) (backend user : pystr) (groups : list entry)
| Call_super_add_user (attrs : loc) (content : dict)
| Call_super_set_attrs (username : pystr) (attrs : loc) (content : dict)
| Call_super_add_to_groups (username : pystr) (groups : list pystr)
| Call_super_del_from_groups (username : pystr) (groups : list pystr).

(** A call together with the exception it raised, if any. *)
Record event := Ev { ev_call : call; ev_raised : option exn }.

(** How the outside answers, given everything that happened before. *)
Record environment := {
  raises : list event -> call -> option exn;
  search_result : list event -> call -> list entry;
  user_dn : list event -> call -> pystr;
  (** what an inherited method leaves in the dictionary it was handed *)
  parent_writes : list event -> call -> dict
}.

Record world := World { heap : gmap loc dict; trace : list event }.

(** Computations: they may raise, and they change the world. *)
Definition M (A : Type) : Type := world -> (exn + A) * world.

Global Instance M_ret : MRet M := fun A (a : A) w => (inr a, w).
Global Instance M_bind : MBind M := fun A B (f : A -> M B) (m : M A) w =>
  match m w with
  | (inl e, w') => (inl e, w')
  | (inr a, w') => f a w'
  end.

Definition raise {A} (e : exn) : M A := fun w => (inl e, w).

(** [try: body except Exception as e: handler(e)]. *)
Definition try_except {A} (body : M A) (handler : exn -> M A) : M A := fun w =>
  match body w with
  | (inl e, w') => handler e w'
  | r => r
  end.

(** [try: body except ldap.INVALID_CREDENTIALS: handler]; any other
    exception passes through. *)
Definition try_except_INVALID_CREDENTIALS {A} (body : M A) (handler : M A) : M A :=
  fun w =>
  match body w with
  | (inl (LDAPError INVALID_CREDENTIALS), w') => handler w'
  | r => r
  end.

Definition lift {A} (r : exn + A) : M A := fun w => (r, w).
Definition history : M (list event) := fun w => (inr (trace w), w).

(** *** Dictionaries on the heap *)

Definition dict_load (l : loc) : M dict := fun w =>
  match heap w !! l with
  | Some d => (inr d, w)
  | None => (inl TypeError, w)
  end.

Definition dict_store (l : loc) (d : dict) : M unit := fun w =>
  (inr tt, World (<[l := d]> (heap w)) (trace w)).

(** [d[k]] *)
Definition dict_getitem (l : loc) (k : pystr) : M pystr :=
  d ← dict_load l;
  match d !! k with
  | Some v => mret v
  | None => raise (KeyError k)
  end.

(** [d[k] = v] *)
Definition dict_setitem (l : loc) (k v : pystr) : M unit :=
  d ← dict_load l; dict_store l (<[k := v]> d).

(** [del(d[k])] *)
Definition dict_delitem (l : loc) (k : pystr) : M unit :=
  d ← dict_load l;
  match d !! k with
  | Some _ => dict_store l (delete k d)
  | None => raise (KeyError k)
  end.

(** [k in d] *)
Definition dict_contains (l : loc) (k : pystr) : M bool :=
  d ← dict_load l; mret (bool_decide (is_Some (d !! k))).


(** *** String interpolation

    [template % mapping], for templates whose conversions are all of the
    form [%(key)s] (or the escape [%%]) and a mapping from [str] to [str]. *)

Inductive fmt_state :=
| Text
| Percent
| Key (k : pystr)
| Conversion (k : pystr).

Fixpoint percent_format (m : dict) (st : fmt_state) (t : pystr) : exn + pystr :=
  match t with
  | [] => match st with Text => inr [] | _ => inl ValueError end
  | c :: t' =>
      match st with
      | Text =>
          if c =? 37 then percent_format m Percent t'
          else match percent_format m Text t' with
               | inr r => inr (c :: r)
               | inl e => inl e
               end
      | Percent =>
          if c =? 40 then percent_format m (Key []) t'
          else if c =? 37 then
            match percent_format m Text t' with
            | inr r => inr (37 :: r)
            | inl e => inl e
            end
          else inl ValueError
      | Key k =>
          if c =? 41 then percent_format m (Conversion k) t'
          else percent_format m (Key (k ++ [c])) t'
      | Conversion k =>
          if c =? 115 then
            match m !! k with
            | Some v =>
                match percent_format m Text t' with
                | inr r => inr (v ++ r)
                | inl e => inl e
                end
            | None => inl (KeyError k)
            end
          else inl ValueError
      end
  end.

Definition format (template : pystr) (args : list (pystr * pystr)) : exn + pystr :=
  percent_format (list_to_map args) Text template.

(* ------------------------------------------------------------------ *)
(** ** The backend object *)

Record Backend := {
  backend_name : pystr;
  backend_display_name : pyval;
  domain : pystr;
  login : pystr;
  binddn : pystr;
  bindpassword : pyval;
  ca : pyval;
  checkcert : pyval;
  starttls : pyval;
  uri : pyval;
  timeout : pyval;
  userdn : pystr;
  groupdn : pystr;
  builtin : pystr;
  user_filter_tmpl : pystr;
  group_filter_tmpl : pystr;
  search_filter_tmpl : pystr;
  dn_user_attr : pystr;
  key : pystr;
  objectclasses : list bytes;
  group_attrs : dict;
  attrlist : list pystr;
  group_attrs_keys : list pystr
}.

(** The quotation mark, as a one-character string. *)
Definition quote : pystr := [34].

(** [logging.DEBUG] *)
Definition DEBUG : Z := 10.

(** What the adapter inherits from the generic LDAP backend and imports
    from the standard library and python-ldap, and the environment it
    runs against. *)
Class Base := {
  env : environment;
  (** [self.get_param(name, default)], inherited: reads [self.config]. *)
  get_param : pystr -> option pyval -> exn + pyval;
  (** [os.environ] *)
  os_environ : gmap pystr pystr;
  (** Inherited conversion helpers between text and bytes. *)
  _byte_p2 : pystr -> pystr;
  _byte_p23 : pystr -> bytes;
  _uni : bytes -> pystr;
  (** [ldap.filter.escape_filter_chars] *)
  escape_filter_chars : pystr -> pystr
}.

Section backendAD.

Context {base : Base}.

(** [os.getenv(name, default)] *)
Definition getenv (name : pystr) (default_ : pyval) : pyval :=
  match os_environ !! name with
  | Some v => VStr v
  | None => default_
  end.

(** An operand of [+] or [re.sub] that has to be a [str]. *)
Definition as_str (v : pyval) : M pystr :=
  match v with
  | VStr s => mret s
  | _ => raise TypeError
  end.

(** A call that leaves the adapter: it is recorded, and it raises what the
    environment says. *)
Definition external (c : call) : M unit := fun w =>
  let r := raises env (trace w) c in
  (match r with Some e => inl e | None => inr tt end,
   World (heap w) (trace w ++ [Ev c r])).

(** [self._bind()]: a fresh client object, bound with the service
    account. The client is named after the position of the call. *)
Definition _bind : M client :=
  h ← history; external Call_bind;; mret (length h).

(** [self._connect()]: a fresh client object, not bound yet. *)
Definition _connect : M client :=
  h ← history; external Call_connect;; mret (length h).

Definition simple_bind_s (c : client) (who cred : pystr) : M unit :=
  external (Call_simple_bind_s c who cred).

Definition search_s (c : client) (base : pystr) (scope : Z)
    (filterstr : pystr) (attrlist_ : list pystr) : M (list entry) :=
  h ← history;
  let q := Call_search_s c base scope filterstr attrlist_ in
  external q;; mret (search_result env h q).

Definition modify_s (c : client) (dn : pystr) (ml : list modification) : M unit :=
  external (Call_modify_s c dn ml).

Definition unbind_s (c : client) : M unit :=
  external (Call_unbind_s c).

Definition _get_user (username : pystr) (attrs : Z) : M pystr :=
  h ← history;
  let q := Call_get_user username attrs in
  external q;; mret (user_dn env h q).

Definition _exception_handler (e : exn) : M unit :=
  external (Call_exception_handler e).

Definition _logger (severity : Z) (backend user : pystr) (groups : list entry) : M unit :=
  external (Call_logger severity backend user groups).

(** An inherited method that is handed the dictionary [attrs]: it sees
    the current content and may leave another one behind. *)
Definition with_dict (attrs : loc) (q : dict -> call) : M unit :=
  d ← dict_load attrs;
  h ← history;
  dict_store attrs (parent_writes env h (q d));;
  external (q d).

Definition super_add_user (attrs : loc) : M unit :=
  with_dict attrs (Call_super_add_user attrs).

Definition super_set_attrs (username : pystr) (attrs : loc) : M unit :=
  with_dict attrs (Call_super_set_attrs username attrs).

Definition super_add_to_groups (username : pystr) (groups : list pystr) : M unit :=
  external (Call_super_add_to_groups username groups).

Definition super_del_from_groups (username : pystr) (groups : list pystr) : M unit :=
  external (Call_super_del_from_groups username groups).

(** *** [Backend.__init__] *)

Definition __init__ (name : pystr) (attrslist : list pystr) (key_ : pystr) : M Backend :=
  backend_display_name_ ← lift (get_param (u"display_name") None);
  domain_v ← lift (get_param (u"domain") None);
  login_d ← lift (get_param (u"login") None);
  let login_v := getenv (u"AD_LOGIN") login_d in
  domain_ ← as_str domain_v;
  let basedn := u"dc=" ++ re_sub_dot (u",DC=") domain_ in
  login_ ← as_str login_v;
  let binddn_ := login_ ++ u"@" ++ domain_ in
  password_d ← lift (get_param (u"password") None);
  let bindpassword_ := getenv (u"PASSWORD") password_d in
  ca_ ← lift (get_param (u"ca") (Some (VBool false)));
  checkcert_ ← lift (get_param (u"checkcert") (Some (VStr (u"on"))));
  starttls_ ← lift (get_param (u"starttls") (Some (VStr (u"off"))));
  uri_ ← lift (get_param (u"uri") None);
  timeout_ ← lift (get_param (u"timeout") (Some (VInt 1)));
  let userdn_ := u"OU=Users,OU=" ++ hd [] (split_dot domain_) ++ u"," ++ basedn in
  let groupdn_ := userdn_ in
  let builtin_ := u"CN=Builtin," ++ basedn in
  let attrlist_ := foldl (fun acc a => acc ++ [_byte_p2 a]) [] attrslist in
  if negb (bool_decide (_byte_p2 (u"cn") ∈ attrlist_)) then raise MissingAttr
  else if negb (bool_decide (_byte_p2 (u"unicodePwd") ∈ attrlist_)) then raise MissingAttr
  else mret {|
    backend_name := name;
    backend_display_name := backend_display_name_;
    domain := domain_;
    login := login_;
    binddn := binddn_;
    bindpassword := bindpassword_;
    ca := ca_;
    checkcert := checkcert_;
    starttls := starttls_;
    uri := uri_;
    timeout := timeout_;
    userdn := userdn_;
    groupdn := groupdn_;
    builtin := builtin_;
    user_filter_tmpl := u"(sAMAccountName=%(username)s)";
    group_filter_tmpl := u"(member=%(userdn)s)";
    search_filter_tmpl :=
      u"(&(|(sAMAccountName=%(searchstring)s)" ++
      u"(cn=%(searchstring)s*)" ++
      u"(name=%(searchstring)s*)" ++
      u"(sn=%(searchstring)s*)" ++
      u"(givenName=%(searchstring)s*)" ++
      u"(cn=%(searchstring)s*))" ++
      u"(&(objectClass=person)" ++
      u"(objectClass=user)" ++
      u"(!(objectClass=computer)))" ++
      u")";
    dn_user_attr := u"cn";
    key := u"sAMAccountName";
    objectclasses := [
      _byte_p23 (u"top");
      _byte_p23 (u"person");
      _byte_p23 (u"organizationalPerson");
      _byte_p23 (u"user");
      _byte_p23 (u"posixAccount")
    ];
    group_attrs := {[ u"member" := u"%(dn)s" ]};
    attrlist := attrlist_;
    group_attrs_keys := []
  |}.

(** [for x in l: body], threading the variables the body assigns. *)
Fixpoint for_in {A S : Type} (l : list A) (body : S -> A -> M S) (s : S) : M S :=
  match l with
  | [] => mret s
  | a :: l' => s' ← body s a; for_in l' body s'
  end.

(** *** [Backend._search_group] *)

Definition _search_group (self : Backend) (searchfilter groupdn_ : pystr)
    : M (list entry) :=
  let searchfilter := _byte_p2 searchfilter in
  ldap_client ← _bind;
  (* [r] stays unassigned when the handler returns normally *)
  r ← try_except
        (r ← search_s ldap_client groupdn_ SCOPE_SUBTREE searchfilter [u"CN"];
         mret (Some r))
        (fun e => unbind_s ldap_client;; _exception_handler e;; mret None);
  unbind_s ldap_client;;
  match r with
  | Some r => mret r
  | None => raise UnboundLocalError
  end.

(** *** [Backend._build_groupdn] *)

Definition _build_groupdn (self : Backend) (groups : list pystr) : list pystr :=
  foldl (fun ad_groups group =>
           if bool_decide (group ∈ AD_BUILTIN_GROUPS)
           then ad_groups ++ [u"cn=" ++ group ++ u"," ++ builtin self]
           else ad_groups ++ [u"cn=" ++ group ++ u"," ++ groupdn self])
        [] groups.

(** *** [Backend._set_password]

    The statements after the bare [return] of the source are never
    executed and have no counterpart here. *)

Definition _set_password (self : Backend) (name password : pystr) (by_cn : bool)
    : M unit :=
  let unicode_pass := quote ++ password ++ quote in
  password_value ← lift (encode_utf_16_le unicode_pass);
  ldap_client ← _bind;
  dn ← (if by_cn then
          dn ← lift (format (u"CN=%(cn)s,%(user_dn)s")
                            [(u"cn", name); (u"user_dn", userdn self)]);
          mret (_byte_p2 dn)
        else mret (_byte_p2 name));
  modify_s ldap_client dn [(MOD_REPLACE, u"unicodePwd", [password_value])];;
  mret tt.

(** *** [Backend.add_user] *)

Definition add_user (self : Backend) (attrs : loc) : M unit :=
  password ← dict_getitem attrs (u"unicodePwd");
  dict_delitem attrs (u"unicodePwd");;
  name ← dict_getitem attrs (u"sAMAccountName");
  upn ← lift (format (u"%(name)s@%(domain)s")
                     [(u"name", name); (u"domain", domain self)]);
  dict_setitem attrs (u"userPrincipalName") upn;;
  cn ← dict_getitem attrs (u"cn");
  dict_setitem attrs (u"displayName") cn;;
  super_add_user attrs;;
  ldap_client ← _bind;
  cn ← dict_getitem attrs (u"cn");
  dn ← lift (format (u"CN=%(cn)s,%(user_dn)s")
                    [(u"cn", cn); (u"user_dn", userdn self)]);
  let dn := _byte_p2 dn in
  (* Set password *)
  encoded_password ← lift (encode_utf_16_le (quote ++ password ++ quote));
  modify_s ldap_client dn [(MOD_REPLACE, u"unicodePwd", [encoded_password])];;
  (* Enable user account *)
  modify_s ldap_client dn [(MOD_REPLACE, u"UserAccountControl", [u"512"])];;
  unbind_s ldap_client.

(** *** [Backend.set_attrs] *)

Definition set_attrs (self : Backend) (username : pystr) (attrs : loc) : M unit :=
  has_pwd ← dict_contains attrs (u"unicodePwd");
  (if has_pwd : bool then
     password ← dict_getitem attrs (u"unicodePwd");
     dict_delitem attrs (u"unicodePwd");;
     userdn_ ← _get_user (_byte_p2 username) NO_ATTR;
     _set_password self userdn_ password false
   else mret tt);;
  super_set_attrs username attrs.

(** *** [Backend.add_to_groups] and [Backend.del_from_groups] *)

Definition add_to_groups (self : Backend) (username : pystr) (groups : list pystr)
    : M unit :=
  let ad_groups := _build_groupdn self groups in
  super_add_to_groups username ad_groups.

Definition del_from_groups (self : Backend) (username : pystr) (groups : list pystr)
    : M unit :=
  let ad_groups := _build_groupdn self groups in
  super_del_from_groups username ad_groups.

(** *** [Backend.get_groups] *)

(** [entry[1]['cn'][0]] *)
Definition entry_cn (e : entry) : M bytes :=
  match e.2 !! u"cn" with
  | None => raise (KeyError (u"cn"))
  | Some [] => raise IndexError
  | Some (v :: _) => mret v
  end.

Definition get_groups (self : Backend) (username : pystr) : M (list pystr) :=
  let username := escape_filter_chars username in
  userdn_ ← _get_user (_byte_p2 username) NO_ATTR;
  searchfilter ← lift (format (group_filter_tmpl self)
                              [(u"userdn", userdn_); (u"username", username)]);
  groups ← _search_group self searchfilter (groupdn self);
  groups' ← _search_group self searchfilter (builtin self);
  let groups := groups ++ groups' in
  let ret := [] in
  _logger DEBUG (backend_name self) username groups;;
  for_in groups (fun ret e => cn ← entry_cn e; mret (ret ++ [_uni cn])) ret.

(** *** [Backend.auth] *)

Definition auth (self : Backend) (username password : pystr) : M bool :=
  let binddn_ := Some (username ++ u"@" ++ domain self) in
  match binddn_ with
  | Some binddn_ =>
      ldap_client ← _connect;
      returned ← try_except_INVALID_CREDENTIALS
        (simple_bind_s ldap_client (_byte_p2 binddn_) (_byte_p2 password);;
         mret None)
        (unbind_s ldap_client;; mret (Some false));
      match returned with
      | Some b => mret b
      | None => unbind_s ldap_client;; mret true
      end
  | None => mret false
  end.

End backendAD.

(* ------------------------------------------------------------------ *)
(** ** Reading traces: the life cycle of a directory session *)

Definition is_unbind_of (c : client) (e : event) : bool :=
  match ev_call e with
  | Call_unbind_s c' => bool_decide (c' = c)
  | _ => false
  end.

(** How often [unbind_s] was called on client [c]. *)
Definition unbinds (c : client) (tr : list event) : nat :=
  length (List.filter (is_unbind_of c) tr).

(** The clients that reached the state Bound: those returned by a
    [_bind] that did not raise, and those on which a [simple_bind_s] did not
    raise. [i] is the position of the head of the trace. *)
Fixpoint bound_from (i : nat) (tr : list event) : list client :=
  match tr with
  | [] => []
  | Ev Call_bind None :: tr' => i :: bound_from (S i) tr'
  | Ev (Call_simple_bind_s c _ _) None :: tr' => c :: bound_from (S i) tr'
  | _ :: tr' => bound_from (S i) tr'
  end.
Definition bound (tr : list event) : list client := bound_from 0 tr.

(** Every session that was bound has been closed exactly once. *)
Definition scoped (tr : list event) : bool :=
  forallb (fun c => Nat.eqb (unbinds c tr) 1) (bound tr).

(** The clients left open at the end of a trace. *)
Definition leaked (tr : list event) : list client :=
  List.filter (fun c => Nat.eqb (unbinds c tr) 0) (bound tr).

Definition is_delete (e : event) : bool :=
  match ev_call e with
  | Call_delete_s _ _ => true
  | _ => false
  end.

(* ------------------------------------------------------------------ *)
(** ** The specification's wording of the base DN *)

(** "splitting the domain on [.] and joining the components as [DC=]
    segments" *)
Definition spec_basedn (domain_ : pystr) : pystr :=
  join (u",") ((fun label => u"DC=" ++ label) <$> split_dot domain_).

(** The base DN as [__init__] computes it. *)
Definition basedn_of (domain_ : pystr) : pystr :=
  u"dc=" ++ re_sub_dot (u",DC=") domain_.

(** A sample configuration, in the shape of the test suite's. *)
Definition sample_config : gmap pystr pyval :=
  list_to_map [
    (u"display_name", VStr (u"Test AD"));
    (u"domain", VStr (u"dc.ldapcherry.org"));
    (u"login", VStr (u"Administrator"));
    (u"password", VStr (u"qwertyP455"));
    (u"uri", VStr (u"ldaps://ad.ldapcherry.org"))
  ].

Definition lookup_param (config : gmap pystr pyval) (name : pystr)
    (default_ : option pyval) : exn + pyval :=
  match config !! name, default_ with
  | Some v, _ => inr v
  | None, Some v => inr v
  | None, None => inl (OtherError 1)
  end.

(** An environment in which nothing fails and nothing is found. *)
Definition quiet : environment := {|
  raises := fun _ _ => None;
  search_result := fun _ _ => [];
  user_dn := fun _ q =>
    match q with
    | Call_get_user username _ => u"CN=" ++ username ++ u",OU=Users,OU=dc,dc=dc,DC=ldapcherry,DC=org"
    | _ => []
    end;
  parent_writes := fun _ q =>
    match q with
    | Call_super_add_user _ d | Call_super_set_attrs _ _ d => d
    | _ => ∅
    end
|}.

Definition empty_world : world := World ∅ [].

(** [ldap.filter.escape_filter_chars] in its default mode. *)
Definition sample_escape_filter_chars (s : pystr) : pystr :=
  c ← s;
  if c =? 92 then u"\5c"
  else if c =? 42 then u"\2a"
  else if c =? 40 then u"\28"
  else if c =? 41 then u"\29"
  else if c =? 0 then u"\00"
  else [c].

(** The inherited helpers under Python 3, for ASCII data, over the sample
    configuration. *)
Definition sample_base (e : environment) : Base := {|
  env := e;
  get_param := lookup_param sample_config;
  os_environ := ∅;
  _byte_p2 := fun s => s;
  _byte_p23 := fun s => s;
  _uni := fun b => b;
  escape_filter_chars := sample_escape_filter_chars
|}.

(** The configuration supplies what [__init__] reads, with the domain
    [domain_] and the login [login_]. *)
Definition configured `{Base} (domain_ login_ : pystr) : Prop :=
  (∃ v, get_param (u"display_name") None = inr v) ∧
  get_param (u"domain") None = inr (VStr domain_) ∧
  (∃ v, get_param (u"login") None = inr v ∧
        getenv (u"AD_LOGIN") v = VStr login_) ∧
  (∃ v, get_param (u"password") None = inr v) ∧
  (∃ v, get_param (u"ca") (Some (VBool false)) = inr v) ∧
  (∃ v, get_param (u"checkcert") (Some (VStr (u"on"))) = inr v) ∧
  (∃ v, get_param (u"starttls") (Some (VStr (u"off"))) = inr v) ∧
  (∃ v, get_param (u"uri") None = inr v) ∧
  (∃ v, get_param (u"timeout") (Some (VInt 1)) = inr v).

(** The modifications that were sent, each with the entry it targets. *)
Definition sent_modifications (tr : list event) : list (pystr * list modification) :=
  omap (fun e => match ev_call e with
                 | Call_modify_s _ dn ml => Some (dn, ml)
                 | _ => None
                 end) tr.

(** A computation that stops at the first call that raises: only the last
    event can carry an exception, and that exception is the outcome. *)
Fixpoint stops_at_failure {A} (new : list event) (r : exn + A) : Prop :=
  match new with
  | [] => True
  | Ev _ None :: rest => stops_at_failure rest r
  | Ev _ (Some e) :: rest => rest = [] ∧ r = inl e
  end.

(** The backend that [__init__] builds from the sample configuration. *)
Definition sample_self : Backend := {|
  backend_name := u"ad";
  backend_display_name := VStr (u"Test AD");
  domain := u"dc.ldapcherry.org";
  login := u"Administrator";
  binddn := u"Administrator@dc.ldapcherry.org";
  bindpassword := VStr (u"qwertyP455");
  ca := VBool false;
  checkcert := VStr (u"on");
  starttls := VStr (u"off");
  uri := VStr (u"ldaps://ad.ldapcherry.org");
  timeout := VInt 1;
  userdn := u"OU=Users,OU=dc,dc=dc,DC=ldapcherry,DC=org";
  groupdn := u"OU=Users,OU=dc,dc=dc,DC=ldapcherry,DC=org";
  builtin := u"CN=Builtin,dc=dc,DC=ldapcherry,DC=org";
  user_filter_tmpl := u"(sAMAccountName=%(username)s)";
  group_filter_tmpl := u"(member=%(userdn)s)";
  search_filter_tmpl :=
    u"(&(|(sAMAccountName=%(searchstring)s)(cn=%(searchstring)s*)(name=%(searchstring)s*)(sn=%(searchstring)s*)(givenName=%(searchstring)s*)(cn=%(searchstring)s*))(&(objectClass=person)(objectClass=user)(!(objectClass=computer))))";
  dn_user_attr := u"cn";
  key := u"sAMAccountName";
  objectclasses := [u"top"; u"person"; u"organizationalPerson"; u"user";
                    u"posixAccount"];
  group_attrs := {[ u"member" := u"%(dn)s" ]};
  attrlist := [u"cn"; u"sAMAccountName"; u"unicodePwd"];
  group_attrs_keys := []
|}.

(** The attribute list declared for the sample backend. *)
Definition sample_attrlist : list pystr :=
  [u"cn"; u"sAMAccountName"; u"unicodePwd"].

(** The attributes of a user to create, and a world that holds them at
    address [0]. *)
Definition sample_attrs : dict :=
  list_to_map [
    (u"cn", u"John Doe");
    (u"sAMAccountName", u"jdoe");
    (u"unicodePwd", u"s3cret")
  ].
Definition sample_world : world := World {[ 0%nat := sample_attrs ]} [].

(** An environment in which every modification is refused. *)
Definition refusing_modifications : environment := {|
  raises := fun _ q =>
    match q with
    | Call_modify_s _ _ _ => Some (LDAPError (OTHER_LDAP_ERROR 53))
    | _ => None
    end;
  search_result := search_result quiet;
  user_dn := user_dn quiet;
  parent_writes := parent_writes quiet
|}.

(** An environment in which every simple bind is rejected. *)
Definition rejecting_credentials : environment := {|
  raises := fun _ q =>
    match q with
    | Call_simple_bind_s _ _ _ => Some (LDAPError INVALID_CREDENTIALS)
    | _ => None
    end;
  search_result := search_result quiet;
  user_dn := user_dn quiet;
  parent_writes := parent_writes quiet
|}.

(** An environment with an unreachable server. *)
Definition server_down : environment := {|
  raises := fun _ q =>
    match q with
    | Call_simple_bind_s _ _ _ | Call_bind => Some (LDAPError SERVER_DOWN)
    | _ => None
    end;
  search_result := search_result quiet;
  user_dn := user_dn quiet;
  parent_writes := parent_writes quiet
|}.

(** A directory in which a group named [Users] exists in the ordinary
    container and in the builtin one, the user being a member of both: a
    search returns the group of the container it is rooted at. *)
Definition two_groups_named_Users : environment := {|
  raises := fun _ _ => None;
  search_result := fun _ q =>
    match q with
    | Call_search_s _ base _ _ _ =>
        [(u"CN=Users," ++ base, {[ u"cn" := [u"Users"] ]})]
    | _ => []
    end;
  user_dn := user_dn quiet;
  parent_writes := parent_writes quiet
|}.

(** The first value of the attribute [cn] of a search result, where it
    has one. *)
Definition first_cn (e : entry) : option bytes :=
  match e.2 !! u"cn" with
  | Some (v :: _) => Some v
  | _ => None
  end.

(* ------------------------------------------------------------------ *)
(** ** The role catalog *)

(** The attribute and group assignments of a role, per backend. Maps are
    compared by content, so this is also the canonical, order-independent
    form that duplicate detection compares. *)
Abbreviation role_content :=
  (gmap (list N) (gmap (list N) (list N)) * gmap (list N) (list (list N)))%type.

(** A role record as the configuration source gives it: the display
    name and the backend list may be missing. *)
Record role_record := {
  role_key : pystr;
  role_display_name : option pystr;
  role_backends : option role_content
}.

Record RoleDefinition := {
  display_name : pystr;
  content : role_content
}.

Inductive load_error :=
| MissingRolesFile
| MissingKey
| DuplicateRoleKey
| DuplicateRoleContent.

Global Instance load_error_eq_dec : EqDecision load_error.
Proof. solve_decision. Defined.

(** What a load pass has accumulated: the keys seen, the contents seen,
    and the catalog built so far. *)
Record load_state := {
  seen_keys : gset pystr;
  seen_contents : list role_content;
  catalog : gmap pystr RoleDefinition
}.

Definition empty_load_state : load_state :=
  {| seen_keys := ∅; seen_contents := []; catalog := ∅ |}.

(** A backend list holds at least one backend assignment. *)
Definition has_backend (c : role_content) : bool :=
  negb (bool_decide (c.1 = ∅ ∧ c.2 = ∅)).

(** Modelled from the spec: [ldapcherry/roles.py] is not among the sources;
    this is one step of the load pass of section 4.1. A record without
    display name or without a backend assignment fails with [MissingKey];
    then a key seen before fails with [DuplicateRoleKey] and a content seen
    before fails with [DuplicateRoleContent]. *)
Definition add_role (st : load_state) (r : role_record) : load_error + load_state :=
  match role_display_name r, role_backends r with
  | Some name, Some c =>
      if negb (has_backend c) then inl MissingKey
      else if bool_decide (role_key r ∈ seen_keys st) then inl DuplicateRoleKey
      else if bool_decide (c ∈ seen_contents st) then inl DuplicateRoleContent
      else inr {| seen_keys := {[ role_key r ]} ∪ seen_keys st;
                  seen_contents := c :: seen_contents st;
                  catalog := <[ role_key r := {| display_name := name;
                                                 content := c |} ]> (catalog st) |}
  | _, _ => inl MissingKey
  end.

(** Modelled from the spec: the pass over the ordered sequence of role
    records, which stops at the first record that fails. *)
Fixpoint load_records (rs : list role_record) (st : load_state)
    : load_error + load_state :=
  match rs with
  | [] => inr st
  | r :: rs' =>
      match add_role st r with
      | inl e => inl e
      | inr st' => load_records rs' st'
      end
  end.

(** Modelled from the spec: [Load(source)] of section 4.1, the constructor
    [Roles(path)] that the tests call. The source is [None] when the path
    does not exist, and the parsed sequence of role records otherwise. *)
Definition load_roles (source : option (list role_record))
    : load_error + gmap pystr RoleDefinition :=
  match source with
  | None => inl MissingRolesFile
  | Some rs =>
      match load_records rs empty_load_state with
      | inl e => inl e
      | inr st => inr (catalog st)
      end
  end.


(** Sample sources, after the fixtures that the test suite names. *)
Definition users_on (backend : pystr) (groups : list pystr) : role_content :=
  (∅, {[ backend := groups ]}).

Definition roles_yml : list role_record := [
  {| role_key := u"admin-lv3";
     role_display_name := Some (u"Administrators Level 3");
     role_backends := Some (users_on (u"ad") [u"Administrators"]) |};
  {| role_key := u"users";
     role_display_name := Some (u"Simple Users");
     role_backends := Some (users_on (u"ad") [u"Users"]) |}
].

Definition roles_missing_diplay_name_yml : list role_record := [
  {| role_key := u"admin-lv3";
     role_display_name := None;
     role_backends := Some (users_on (u"ad") [u"Administrators"]) |}
].

Definition roles_missing_backends_yml : list role_record := [
  {| role_key := u"admin-lv3";
     role_display_name := Some (u"Administrators Level 3");
     role_backends := None |}
].

Definition roles_key_dup_yml : list role_record := [
  {| role_key := u"users";
     role_display_name := Some (u"Simple Users");
     role_backends := Some (users_on (u"ad") [u"Users"]) |};
  {| role_key := u"users";
     role_display_name := Some (u"Other Users");
     role_backends := Some (users_on (u"ad") [u"Guests"]) |}
].

Definition roles_content_dup_yml : list role_record := [
  {| role_key := u"users";
     role_display_name := Some (u"Simple Users");
     role_backends := Some (users_on (u"ad") [u"Users"]) |};
  {| role_key := u"users2";
     role_display_name := Some (u"Simple Users, again");
     role_backends := Some (users_on (u"ad") [u"Users"]) |}
].

(** The group names [get_groups] reads off a search result. *)
Definition group_names `{Base} (l : list entry) : list pystr :=
  omap (fun e => _uni <$> first_cn e) l.

(* ------------------------------------------------------------------ *)
(** ** The remaining code of the module *)

(** [Backend._tobyte] (Python 3): [in_int.to_bytes(4, byteorder='big')],
    [None] where [to_bytes] raises [OverflowError]. *)
Definition _tobyte (in_int : Z) : option bytes :=
  if ((0 <=? in_int) && (in_int <? 2 ^ 32))%Z then
    let n := Z.to_N in_int in
    Some [N.shiftr n 24;
          N.land (N.shiftr n 16) 0xFF;
          N.land (N.shiftr n 8) 0xFF;
          N.land n 0xFF]
  else None.

(** [int.from_bytes(b, byteorder='big')] *)
Definition from_bytes_big (b : bytes) : N :=
  foldl (fun acc x => 256 * acc + x) 0 b.

(** How many commas a string holds. *)
Definition commas (s : pystr) : nat :=
  length (List.filter (fun c => c =? 44) s).


(** *** More sample environments *)

(** Nothing fails, and [_exception_handler] raises again what it is
    given, as the inherited method does. *)
Definition reraising : environment := {|
  raises := fun _ q =>
    match q with
    | Call_exception_handler e => Some e
    | _ => None
    end;
  search_result := search_result quiet;
  user_dn := user_dn quiet;
  parent_writes := parent_writes quiet
|}.

(** Searches are refused; [_exception_handler] raises again. *)
Definition refusing_searches : environment := {|
  raises := fun _ q =>
    match q with
    | Call_search_s _ _ _ _ _ => Some (LDAPError NO_SUCH_OBJECT)
    | Call_exception_handler e => Some e
    | _ => None
    end;
  search_result := search_result quiet;
  user_dn := user_dn quiet;
  parent_writes := parent_writes quiet
|}.

(** Searches are refused, and [_exception_handler] returns normally. *)
Definition swallowing_handler : environment := {|
  raises := fun _ q =>
    match q with
    | Call_search_s _ _ _ _ _ => Some (LDAPError NO_SUCH_OBJECT)
    | _ => None
    end;
  search_result := search_result quiet;
  user_dn := user_dn quiet;
  parent_writes := parent_writes quiet
|}.

(** The user is not in the directory. *)
Definition unknown_user : environment := {|
  raises := fun _ q =>
    match q with
    | Call_get_user _ _ => Some (OtherError 2)
    | Call_exception_handler e => Some e
    | _ => None
    end;
  search_result := search_result quiet;
  user_dn := user_dn quiet;
  parent_writes := parent_writes quiet
|}.

(** A search under the ordinary container returns one group, a search
    under the builtin container returns an entry without attributes (a
    referral). *)
Definition referral_in_builtin : environment := {|
  raises := fun _ _ => None;
  search_result := fun _ q =>
    match q with
    | Call_search_s _ base _ _ _ =>
        if bool_decide (base = u"CN=Builtin,dc=dc,DC=ldapcherry,DC=org")
        then [([], ∅)]
        else [(u"CN=staff," ++ base, {[ u"cn" := [u"staff"] ]})]
    | _ => []
    end;
  user_dn := user_dn quiet;
  parent_writes := parent_writes quiet
|}.

(** Variants of the sample mapping: without [cn], without the password,
    and with a password that is a lone surrogate. *)
Definition attrs_without_cn : dict := delete (u"cn") sample_attrs.
Definition attrs_without_password : dict := delete (u"unicodePwd") sample_attrs.
Definition attrs_with_lone_surrogate : dict :=
  <[u"unicodePwd" := [0xD800]]> sample_attrs.

Definition world_with (d : dict) : world := World {[ 0%nat := d ]} [].

(** The sample configuration without its [login], and a process
    environment that sets [AD_LOGIN] and [PASSWORD]. *)
Definition config_without_login : gmap pystr pyval :=
  delete (u"login") sample_config.

Definition environ_with_login : gmap pystr pystr :=
  list_to_map [(u"AD_LOGIN", u"svc-ldapcherry"); (u"PASSWORD", u"Pa55word")].

Definition base_with_environ (config : gmap pystr pyval) : Base := {|
  env := quiet;
  get_param := lookup_param config;
  os_environ := environ_with_login;
  _byte_p2 := fun s => s;
  _byte_p23 := fun s => s;
  _uni := fun b => b;
  escape_filter_chars := sample_escape_filter_chars
|}.

(* ------------------------------------------------------------------ *)
(** ** Tactics *)

Arguments u : simpl never.
Arguments encode_utf_16_le : simpl never.
Arguments format : simpl never.
Arguments str_of_N : simpl never.

Ltac unfold_M :=
  unfold mbind, mret, M_bind, M_ret, lift, raise, history, as_str,
    try_except, try_except_INVALID_CREDENTIALS in *.

Ltac unfold_calls :=
  unfold super_add_user, super_set_attrs, with_dict, _bind, _connect,
    simple_bind_s, search_s, modify_s, unbind_s, _get_user,
    _exception_handler, _logger, super_add_to_groups, super_del_from_groups,
    external, dict_getitem, dict_setitem, dict_delitem, dict_contains,
    dict_load, dict_store in *;
  unfold_M.

(** Case analysis on the scrutinee of a [match] of the goal that is not
    itself a [match]. *)
Ltac case_scrutinee :=
  match goal with
  | |- context [match ?x with _ => _ end] =>
      lazymatch x with
      | context [match _ with _ => _ end] => fail
      | _ => destruct x eqn:?
      end
  end.

(* ------------------------------------------------------------------ *)
(** ** Strings and encodings: basic facts *)

(** A code unit is its low byte plus 256 times its high byte. *)
Lemma utf16_unit_le_recombine (w : N) : N.land w 0xFF + 256 * N.shiftr w 8 = w.
Proof.
  change 0xFF with (N.ones 8). rewrite N.land_ones, N.shiftr_div_pow2.
  change (2 ^ 8) with 256. pose proof (N.div_mod w 256). lia.
Qed.

Lemma utf16_le_code_point_roundtrip (c : N) (b rest : bytes) :
  utf16_le_code_point c = Some b →
  decode_utf_16_le (b ++ rest) = cons c <$> decode_utf_16_le rest.
Proof.
  unfold utf16_le_code_point.
  destruct (c <? 0x10000) eqn:Hbmp.
  - destruct (is_surrogate c) eqn:Hs; [done|]. intros [= <-].
    cbn [decode_utf_16_le utf16_unit_le app].
    rewrite utf16_unit_le_recombine, Hs.
    destruct ((0xD800 <=? c) && (c <=? 0xDBFF)) eqn:Hh; [|done].
    apply andb_true_iff in Hh as [H1 H2]. apply andb_false_iff in Hs.
    apply N.leb_le in H1, H2. destruct Hs as [Hs|Hs]; apply N.leb_gt in Hs; lia.
  - destruct (c <=? 0x10FFFF) eqn:Hmax; [|done]. intros [= <-].
    apply N.ltb_ge in Hbmp. apply N.leb_le in Hmax.
    cbn [decode_utf_16_le utf16_unit_le app].
    rewrite !utf16_unit_le_recombine.
    assert (Hhi : N.shiftr (c - 0x10000) 10 < 1024).
    { rewrite N.shiftr_div_pow2. change (2 ^ 10) with 1024.
      apply N.Div0.div_lt_upper_bound. lia. }
    assert (Hlo : N.land (c - 0x10000) 0x3FF < 1024).
    { change 0x3FF with (N.ones 10). rewrite N.land_ones.
      change (2 ^ 10) with 1024. apply N.mod_lt. lia. }
    assert (Hc : 1024 * N.shiftr (c - 0x10000) 10 + N.land (c - 0x10000) 0x3FF
                 = c - 0x10000).
    { change 0x3FF with (N.ones 10).
      rewrite N.land_ones, N.shiftr_div_pow2. change (2 ^ 10) with 1024.
      pose proof (N.div_mod (c - 0x10000) 1024). lia. }
    rewrite (proj2 (andb_true_iff _ _)) by (split; apply N.leb_le; lia).
    rewrite (proj2 (andb_true_iff _ _)) by (split; apply N.leb_le; lia).
    f_equal. f_equal. lia.
Qed.

Lemma encode_utf_16_le_cons (c : N) (s : pystr) :
  encode_utf_16_le (c :: s) =
  match utf16_le_code_point c with
  | None => inl UnicodeEncodeError
  | Some b =>
      match encode_utf_16_le s with
      | inl e => inl e
      | inr bs => inr (b ++ bs)
      end
  end.
Proof. reflexivity. Qed.

(** What [encode_utf_16_le] produces decodes to the string it was given:
    the encoding loses nothing. *)
Lemma encode_utf_16_le_roundtrip (s : pystr) (b : bytes) :
  encode_utf_16_le s = inr b → decode_utf_16_le b = Some s.
Proof.
  revert b. induction s as [|c s IH]; intros b.
  - by intros [= <-].
  - rewrite encode_utf_16_le_cons. destruct (utf16_le_code_point c) as [bc|] eqn:Hc; [|done].
    destruct (encode_utf_16_le s) as [e|bs]; [by intros [=]|]. intros [= <-].
    rewrite (utf16_le_code_point_roundtrip c bc bs Hc), (IH bs eq_refl). done.
Qed.

(** The encoding raises exactly on strings that hold a surrogate. *)
Lemma encode_utf_16_le_total (s : pystr) :
  Forall is_code_point s →
  (∃ b, encode_utf_16_le s = inr b) ↔ Forall (fun c => is_surrogate c = false) s.
Proof.
  induction 1 as [|c s Hc _ IH].
  - split; [constructor|]. intros _. by exists [].
  - rewrite encode_utf_16_le_cons.
    unfold utf16_le_code_point, is_code_point in *.
    rewrite Forall_cons, <- IH. apply N.leb_le in Hc. rewrite Hc.
    destruct (c <? 0x10000) eqn:Hbmp.
    + destruct (is_surrogate c); [by split; [intros [? ?]|intros [? ?]]|].
      destruct (encode_utf_16_le s) as [e|bs].
      * split; [by intros [? ?]|by intros [_ [? ?]]].
      * split; eauto.
    + assert (is_surrogate c = false) as ->.
      { unfold is_surrogate. apply N.ltb_ge in Hbmp.
        apply andb_false_iff. right. apply N.leb_gt. lia. }
      destruct (encode_utf_16_le s) as [e|bs].
      * split; [by intros [? ?]|by intros [_ [? ?]]].
      * split; eauto.
Qed.

Lemma split_dot_nonempty (s : pystr) : split_dot s ≠ [].
Proof.
  destruct s as [|c s]; simpl; [done|].
  destruct (c =? 46); [done|]. by destruct (split_dot s).
Qed.

(** Replacing every full stop is the same as splitting and joining. *)
Lemma re_sub_dot_join (sep s : pystr) :
  re_sub_dot sep s = join sep (split_dot s).
Proof.
  induction s as [|c s IH]; simpl; [done|].
  destruct (c =? 46).
  - rewrite IH. pose proof (split_dot_nonempty s).
    by destruct (split_dot s).
  - rewrite IH. pose proof (split_dot_nonempty s).
    destruct (split_dot s) as [|f fs]; [done|].
    by destruct fs.
Qed.

Lemma join_cons (sep p : pystr) (ps : list pystr) :
  ps ≠ [] → join sep (p :: ps) = p ++ sep ++ join sep ps.
Proof. by destruct ps. Qed.

Lemma spec_basedn_join (d : pystr) :
  spec_basedn d = u"DC=" ++ join (u",DC=") (split_dot d).
Proof.
  unfold spec_basedn. pose proof (split_dot_nonempty d) as Hne.
  induction (split_dot d) as [|p ps IH]; [done|].
  destruct ps as [|p' ps]; [done|].
  rewrite fmap_cons, join_cons by done.
  rewrite IH by done. rewrite (join_cons _ p) by done.
  change (u ",DC=") with (u"," ++ u"DC="). by rewrite <- !app_assoc.
Qed.

Lemma foldl_snoc_map {A B} (f : A → B) (l : list A) (acc : list B) :
  foldl (fun acc a => acc ++ [f a]) acc l = acc ++ (f <$> l).
Proof.
  revert acc. induction l as [|a l IH]; intros acc; simpl.
  - by rewrite app_nil_r.
  - rewrite IH. by rewrite <- app_assoc.
Qed.

(* ------------------------------------------------------------------ *)
(** ** Initialisation *)

Section init_facts.

Context {base : Base}.

(** [__init__] never changes the world: it neither touches the heap nor
    calls out. *)
Lemma init_pure name attrslist key_ w :
  (__init__ name attrslist key_ w).2 = w.
Proof.
  unfold __init__. unfold_M.
  repeat (case_scrutinee; simpl; try done).
Qed.

(** What a successful [__init__] has computed. *)
Lemma init_inv name attrslist key_ w self w' :
  __init__ name attrslist key_ w = (inr self, w') →
  w' = w ∧
  get_param (u"domain") None = inr (VStr (domain self)) ∧
  userdn self = u"OU=Users,OU=" ++ hd [] (split_dot (domain self)) ++ u"," ++
                basedn_of (domain self) ∧
  groupdn self = userdn self ∧
  builtin self = u"CN=Builtin," ++ basedn_of (domain self) ∧
  binddn self = login self ++ u"@" ++ domain self ∧
  group_filter_tmpl self = u"(member=%(userdn)s)" ∧
  attrlist self = _byte_p2 <$> attrslist ∧
  _byte_p2 (u"cn") ∈ attrlist self ∧
  _byte_p2 (u"unicodePwd") ∈ attrlist self.
Proof.
  unfold __init__. unfold_M. rewrite foldl_snoc_map. simpl.
  repeat (case_scrutinee; simpl; try done).
  intros [= <- <-]. simpl.
  repeat match goal with
         | H : negb (bool_decide _) = false |- _ =>
             apply negb_false_iff, bool_decide_eq_true in H
         end.
  by repeat split.
Qed.

Lemma init_configured name attrslist key_ w domain_ login_ :
  configured domain_ login_ →
  (_byte_p2 (u"cn") ∈ _byte_p2 <$> attrslist →
   _byte_p2 (u"unicodePwd") ∈ _byte_p2 <$> attrslist →
   ∃ self, __init__ name attrslist key_ w = (inr self, w)) ∧
  (¬ (_byte_p2 (u"cn") ∈ _byte_p2 <$> attrslist ∧
      _byte_p2 (u"unicodePwd") ∈ _byte_p2 <$> attrslist) →
   __init__ name attrslist key_ w = (inl MissingAttr, w)).
Proof.
  intros ([v1 H1] & H2 & (v3 & H3 & H3') & [v4 H4] & [v5 H5] & [v6 H6] &
          [v7 H7] & [v8 H8] & [v9 H9]).
  unfold __init__. unfold_M. rewrite foldl_snoc_map. simpl.
  rewrite H1, H2, H3, H3', H4, H5, H6, H7, H8, H9. simpl.
  split.
  - intros Hcn Hpw. rewrite !bool_decide_eq_true_2 by done. simpl. eauto.
  - intros Hn.
    destruct (decide (_byte_p2 (u"cn") ∈ _byte_p2 <$> attrslist)) as [Hcn|Hcn].
    + rewrite (bool_decide_eq_true_2 _ Hcn). simpl.
      rewrite bool_decide_eq_false_2; [done|]. intros Hpw. by apply Hn.
    + by rewrite (bool_decide_eq_false_2 _ Hcn).
Qed.

End init_facts.

(* ------------------------------------------------------------------ *)
(** ** Distinguished names and required attributes *)

Section init_theorems.

Context {base : Base}.

(** With a complete configuration and both required attributes declared,
    [__init__] returns a backend; its fields are the following. *)
Lemma init_ok name attrslist key_ w domain_ login_ :
  configured domain_ login_ →
  _byte_p2 (u"cn") ∈ _byte_p2 <$> attrslist →
  _byte_p2 (u"unicodePwd") ∈ _byte_p2 <$> attrslist →
  ∃ self,
    __init__ name attrslist key_ w = (inr self, w) ∧
    domain self = domain_ ∧
    userdn self = u"OU=Users,OU=" ++ hd [] (split_dot domain_) ++ u"," ++
                  basedn_of domain_ ∧
    groupdn self = userdn self ∧
    builtin self = u"CN=Builtin," ++ basedn_of domain_ ∧
    group_filter_tmpl self = u"(member=%(userdn)s)".
Proof.
  intros Hcfg Hcn Hpw.
  destruct (init_configured name attrslist key_ w _ _ Hcfg) as [Hok _].
  destruct (Hok Hcn Hpw) as [self Hself]. exists self.
  destruct (init_inv _ _ _ _ _ _ Hself) as (_ & Hd & Hu & Hg & Hb & _ & Hf & _).
  destruct Hcfg as (_ & Hd' & _). rewrite Hd' in Hd.
  injection Hd as Hd. subst domain_. done.
Qed.

Lemma basedn_of_join (d : pystr) :
  basedn_of d = u"dc=" ++ join (u",DC=") (split_dot d).
Proof. unfold basedn_of. by rewrite re_sub_dot_join. Qed.

Lemma builtin_not_groupdn (x y : pystr) :
  u"CN=Builtin," ++ x ≠ u"OU=Users,OU=" ++ y.
Proof. unfold u. simpl. discriminate. Qed.

(** C7 (as amended): for every configured domain name, the base DN is the
    domain split on full stops with the labels joined by [,DC=] behind
    a first, lower-case [dc=]; it differs from the join of [DC=] segments
    only in the case of that first attribute type. The user and group
    container is [OU=Users,OU=<first label>,<base DN>] and the builtin
    container is [CN=Builtin,<base DN>]. *)
Theorem C7_dn_derivation name attrslist key_ w domain_ login_ :
  configured domain_ login_ →
  _byte_p2 (u"cn") ∈ _byte_p2 <$> attrslist →
  _byte_p2 (u"unicodePwd") ∈ _byte_p2 <$> attrslist →
  ∃ self,
    __init__ name attrslist key_ w = (inr self, w) ∧
    domain self = domain_ ∧
    let labels := split_dot domain_ in
    let basedn := u"dc=" ++ join (u",DC=") labels in
    userdn self = u"OU=Users,OU=" ++ hd [] labels ++ u"," ++ basedn ∧
    groupdn self = userdn self ∧
    builtin self = u"CN=Builtin," ++ basedn ∧
    spec_basedn domain_ = u"DC=" ++ join (u",DC=") labels.
Proof.
  intros Hcfg Hcn Hpw.
  destruct (init_ok name attrslist key_ w _ _ Hcfg Hcn Hpw)
    as (self & Hself & Hd & Hu & Hg & Hb & _).
  exists self. rewrite basedn_of_join in Hu, Hb.
  repeat split; try done. apply spec_basedn_join.
Qed.

Lemma rdn_inj (g a b : pystr) :
  [u"cn=" ++ g ++ u"," ++ a] = [u"cn=" ++ g ++ u"," ++ b] → a = b.
Proof.
  intros H. apply (f_equal (hd [])) in H. cbn [hd] in H.
  by do 3 apply app_inv_head in H.
Qed.

(** The loop of [_build_groupdn] resolves each name on its own. *)
Lemma _build_groupdn_map self groups :
  _build_groupdn self groups =
  (fun g => u"cn=" ++ g ++ u"," ++
            (if bool_decide (g ∈ AD_BUILTIN_GROUPS)
             then builtin self else groupdn self)) <$> groups.
Proof.
  unfold _build_groupdn.
  enough (∀ acc,
    foldl (fun ad_groups group =>
             if bool_decide (group ∈ AD_BUILTIN_GROUPS)
             then ad_groups ++ [u"cn=" ++ group ++ u"," ++ builtin self]
             else ad_groups ++ [u"cn=" ++ group ++ u"," ++ groupdn self])
          acc groups =
    acc ++ ((fun g => u"cn=" ++ g ++ u"," ++
                      (if bool_decide (g ∈ AD_BUILTIN_GROUPS)
                       then builtin self else groupdn self)) <$> groups))
    as H by apply (H []).
  induction groups as [|g gs IH]; intros acc; simpl.
  - by rewrite app_nil_r.
  - destruct (bool_decide (g ∈ AD_BUILTIN_GROUPS));
      rewrite IH; by rewrite <- app_assoc.
Qed.

(** C1: a group name resolves to the entry [cn=<name>] of the builtin
    container exactly when it is in [AD_BUILTIN_GROUPS], and to the entry
    [cn=<name>] of the ordinary group container exactly when it is not;
    [_build_groupdn] resolves each name of its argument in this way, in
    order, and [add_to_groups] and [del_from_groups] hand the resolved
    names to the generic backend. *)
Theorem C1_group_reference_resolution name attrslist key_ w domain_ login_ :
  configured domain_ login_ →
  _byte_p2 (u"cn") ∈ _byte_p2 <$> attrslist →
  _byte_p2 (u"unicodePwd") ∈ _byte_p2 <$> attrslist →
  ∃ self,
    __init__ name attrslist key_ w = (inr self, w) ∧
    builtin self = u"CN=Builtin," ++ basedn_of domain_ ∧
    (∀ groups,
       _build_groupdn self groups =
       (fun g => u"cn=" ++ g ++ u"," ++
                 (if bool_decide (g ∈ AD_BUILTIN_GROUPS)
                  then builtin self else groupdn self)) <$> groups) ∧
    (∀ g, _build_groupdn self [g] = [u"cn=" ++ g ++ u"," ++ builtin self]
          ↔ g ∈ AD_BUILTIN_GROUPS) ∧
    (∀ g, _build_groupdn self [g] = [u"cn=" ++ g ++ u"," ++ groupdn self]
          ↔ g ∉ AD_BUILTIN_GROUPS) ∧
    (∀ username groups w0,
       trace (add_to_groups self username groups w0).2 =
       trace w0 ++
       [Ev (Call_super_add_to_groups username (_build_groupdn self groups))
           (raises env (trace w0)
              (Call_super_add_to_groups username (_build_groupdn self groups)))]) ∧
    (∀ username groups w0,
       trace (del_from_groups self username groups w0).2 =
       trace w0 ++
       [Ev (Call_super_del_from_groups username (_build_groupdn self groups))
           (raises env (trace w0)
              (Call_super_del_from_groups username (_build_groupdn self groups)))]).
Proof.
  intros Hcfg Hcn Hpw.
  destruct (init_ok name attrslist key_ w _ _ Hcfg Hcn Hpw)
    as (self & Hself & Hd & Hu & Hg & Hb & _).
  exists self.
  assert (Hne : builtin self ≠ groupdn self).
  { rewrite Hb, Hg, Hu. apply builtin_not_groupdn. }
  pose proof (_build_groupdn_map self) as Hmap.
  repeat split; try done.
  - rewrite Hmap. simpl. intros H%rdn_inj.
    destruct (bool_decide (g ∈ AD_BUILTIN_GROUPS)) eqn:E.
    + by apply bool_decide_eq_true in E.
    + by destruct Hne.
  - intros Hin. rewrite Hmap. simpl. by rewrite bool_decide_eq_true_2.
  - rewrite Hmap. simpl. intros H%rdn_inj.
    destruct (bool_decide (g ∈ AD_BUILTIN_GROUPS)) eqn:E.
    + by destruct Hne.
    + by apply bool_decide_eq_false in E.
  - intros Hin. rewrite Hmap. simpl. by rewrite bool_decide_eq_false_2.
Qed.

(** C3: with an otherwise complete configuration, [__init__] raises
    [MissingAttr] when the attribute list lacks ["cn"] or lacks
    ["unicodePwd"], and returns a backend when it has both; either way it
    leaves the world as it found it, so no call has left the adapter. *)
Theorem C3_required_attributes name attrslist key_ w domain_ login_ :
  Inj (=) (=) _byte_p2 →
  configured domain_ login_ →
  (u"cn" ∉ attrslist ∨ u"unicodePwd" ∉ attrslist →
   __init__ name attrslist key_ w = (inl MissingAttr, w)) ∧
  (u"cn" ∈ attrslist → u"unicodePwd" ∈ attrslist →
   ∃ self, __init__ name attrslist key_ w = (inr self, w)) ∧
  trace (__init__ name attrslist key_ w).2 = trace w.
Proof.
  intros Hinj Hcfg.
  destruct (init_configured name attrslist key_ w _ _ Hcfg) as [Hok Hko].
  split; [|split].
  - intros Hmiss. apply Hko. intros [Hcn Hpw].
    apply (list_elem_of_fmap_inj_2 _) in Hcn, Hpw. tauto.
  - intros Hcn Hpw. apply Hok; by apply list_elem_of_fmap_2.
  - by rewrite init_pure.
Qed.

End init_theorems.

Lemma sample_self_init :
  __init__ (base := sample_base quiet) (u"ad")
    [u"cn"; u"sAMAccountName"; u"unicodePwd"] (u"uid") empty_world
  = (inr sample_self, empty_world).
Proof. vm_compute. reflexivity. Qed.

(* ------------------------------------------------------------------ *)
(** ** Running computations step by step *)

Section interpolation.

Lemma format_dn (cn user_dn : pystr) :
  format (u"CN=%(cn)s,%(user_dn)s") [(u"cn", cn); (u"user_dn", user_dn)]
  = inr (u"CN=" ++ cn ++ u"," ++ user_dn).
Proof.
  rewrite <- (app_nil_r user_dn) at 2. vm_compute. reflexivity.
Qed.

Lemma format_upn (name domain_ : pystr) :
  format (u"%(name)s@%(domain)s") [(u"name", name); (u"domain", domain_)]
  = inr (name ++ u"@" ++ domain_).
Proof.
  rewrite <- (app_nil_r domain_) at 2. vm_compute. reflexivity.
Qed.

Lemma format_member (userdn_ username : pystr) :
  format (u"(member=%(userdn)s)") [(u"userdn", userdn_); (u"username", username)]
  = inr (u"(member=" ++ userdn_ ++ u")").
Proof. vm_compute. reflexivity. Qed.

Lemma key_pwd_sam : u"unicodePwd" ≠ u"sAMAccountName".
Proof. by vm_compute. Qed.
Lemma key_pwd_cn : u"unicodePwd" ≠ u"cn".
Proof. by vm_compute. Qed.
Lemma key_upn_cn : u"userPrincipalName" ≠ u"cn".
Proof. by vm_compute. Qed.
Lemma key_dn_upn : u"displayName" ≠ u"userPrincipalName".
Proof. by vm_compute. Qed.

End interpolation.

Section steps.

Context {base : Base}.

Lemma bind_run {A B} (m : M A) (f : A → M B) w :
  (m ≫= f) w =
  match m w with
  | (inl e, w') => (inl e, w')
  | (inr a, w') => f a w'
  end.
Proof. reflexivity. Qed.

Lemma lift_run {A} (r : exn + A) w : lift r w = (r, w).
Proof. reflexivity. Qed.

Lemma ret_run {A} (a : A) w : (mret a : M A) w = (inr a, w).
Proof. reflexivity. Qed.

Lemma external_run c h t :
  external c (World h t) =
  (match raises env t c with Some e => inl e | None => inr tt end,
   World h (t ++ [Ev c (raises env t c)])).
Proof. reflexivity. Qed.

Lemma _bind_run h t :
  _bind (World h t) =
  (match raises env t Call_bind with
   | Some e => inl e
   | None => inr (length t)
   end,
   World h (t ++ [Ev Call_bind (raises env t Call_bind)])).
Proof. unfold _bind. unfold_calls. simpl. by destruct (raises env t Call_bind). Qed.

Lemma _connect_run h t :
  _connect (World h t) =
  (match raises env t Call_connect with
   | Some e => inl e
   | None => inr (length t)
   end,
   World h (t ++ [Ev Call_connect (raises env t Call_connect)])).
Proof. unfold _connect. unfold_calls. simpl. by destruct (raises env t Call_connect). Qed.

Lemma search_s_run c b sc f al h t :
  let q := Call_search_s c b sc f al in
  search_s c b sc f al (World h t) =
  (match raises env t q with
   | Some e => inl e
   | None => inr (search_result env t q)
   end,
   World h (t ++ [Ev q (raises env t q)])).
Proof.
  unfold search_s. unfold_calls. simpl.
  by destruct (raises env t (Call_search_s c b sc f al)).
Qed.

Lemma _get_user_run username a h t :
  let q := Call_get_user username a in
  _get_user username a (World h t) =
  (match raises env t q with
   | Some e => inl e
   | None => inr (user_dn env t q)
   end,
   World h (t ++ [Ev q (raises env t q)])).
Proof.
  unfold _get_user. unfold_calls. simpl.
  by destruct (raises env t (Call_get_user username a)).
Qed.

Lemma dict_getitem_run l k h t d :
  h !! l = Some d →
  dict_getitem l k (World h t) =
  (match d !! k with Some v => inr v | None => inl (KeyError k) end, World h t).
Proof.
  intros Hl. unfold dict_getitem, dict_load. unfold_M. simpl. rewrite Hl.
  by destruct (d !! k).
Qed.

Lemma dict_setitem_run l k v h t d :
  h !! l = Some d →
  dict_setitem l k v (World h t) = (inr tt, World (<[l := <[k := v]> d]> h) t).
Proof.
  intros Hl. unfold dict_setitem, dict_load, dict_store. unfold_M. simpl.
  by rewrite Hl.
Qed.

Lemma dict_delitem_run l k h t d :
  h !! l = Some d →
  dict_delitem l k (World h t) =
  match d !! k with
  | Some _ => (inr tt, World (<[l := delete k d]> h) t)
  | None => (inl (KeyError k), World h t)
  end.
Proof.
  intros Hl. unfold dict_delitem, dict_load, dict_store. unfold_M. simpl.
  rewrite Hl. by destruct (d !! k).
Qed.

Lemma dict_contains_run l k h t d :
  h !! l = Some d →
  dict_contains l k (World h t) = (inr (bool_decide (is_Some (d !! k))), World h t).
Proof.
  intros Hl. unfold dict_contains, dict_load. unfold_M. simpl. by rewrite Hl.
Qed.

Lemma with_dict_run l q h t d :
  h !! l = Some d →
  with_dict l q (World h t) =
  (match raises env t (q d) with Some e => inl e | None => inr tt end,
   World (<[l := parent_writes env t (q d)]> h)
         (t ++ [Ev (q d) (raises env t (q d))])).
Proof.
  intros Hl. unfold with_dict, dict_load, dict_store, external. unfold_M.
  simpl. by rewrite Hl.
Qed.

End steps.

Section runs.

Context {base : Base}.

(** What [_set_password] does, by cases on the environment. *)
Lemma _set_password_run self name password by_cn h t :
  let dn := _byte_p2 (if by_cn : bool then u"CN=" ++ name ++ u"," ++ userdn self
                      else name) in
  _set_password self name password by_cn (World h t) =
  match encode_utf_16_le (quote ++ password ++ quote) with
  | inl e => (inl e, World h t)
  | inr wire =>
      let t1 := t ++ [Ev Call_bind (raises env t Call_bind)] in
      match raises env t Call_bind with
      | Some e => (inl e, World h t1)
      | None =>
          let m := Call_modify_s (length t) dn
                     [(MOD_REPLACE, u"unicodePwd", [wire])] in
          (match raises env t1 m with Some e => inl e | None => inr tt end,
           World h (t1 ++ [Ev m (raises env t1 m)]))
      end
  end.
Proof.
  intros dn. unfold _set_password.
  rewrite bind_run, lift_run.
  destruct (encode_utf_16_le (quote ++ password ++ quote)) as [e|wire]; [done|].
  cbv beta iota zeta. rewrite bind_run, _bind_run.
  destruct (raises env t Call_bind) as [e|]; [done|].
  cbv beta iota zeta. rewrite bind_run.
  assert ((if by_cn
           then dn0 ← lift (format (u"CN=%(cn)s,%(user_dn)s")
                              [(u"cn", name); (u"user_dn", userdn self)]);
                mret (_byte_p2 dn0)
           else mret (_byte_p2 name))
            (World h (t ++ [Ev Call_bind None])) =
          (inr dn, World h (t ++ [Ev Call_bind None]))) as ->.
  { subst dn. destruct by_cn; [|done].
    by rewrite bind_run, lift_run, format_dn. }
  cbv beta iota zeta. rewrite bind_run. unfold modify_s. rewrite external_run.
  by destruct (raises env _ _).
Qed.

(** What [add_user] does, by cases on the environment. *)
Lemma add_user_run self attrs h t d password name cn :
  h !! attrs = Some d →
  d !! u"unicodePwd" = Some password →
  d !! u"sAMAccountName" = Some name →
  d !! u"cn" = Some cn →
  let handed :=
    <[u"displayName" := cn]>
      (<[u"userPrincipalName" := name ++ u"@" ++ domain self]>
         (delete (u"unicodePwd") d)) in
  let create := Call_super_add_user attrs handed in
  let left := parent_writes env t create in
  let h' := <[attrs := left]> h in
  let t1 := t ++ [Ev create (raises env t create)] in
  add_user self attrs (World h t) =
  match raises env t create with
  | Some e => (inl e, World h' t1)
  | None =>
      let t2 := t1 ++ [Ev Call_bind (raises env t1 Call_bind)] in
      match raises env t1 Call_bind with
      | Some e => (inl e, World h' t2)
      | None =>
          let c := length t1 in
          match left !! u"cn" with
          | None => (inl (KeyError (u"cn")), World h' t2)
          | Some cn' =>
              let dn := _byte_p2 (u"CN=" ++ cn' ++ u"," ++ userdn self) in
              match encode_utf_16_le (quote ++ password ++ quote) with
              | inl e => (inl e, World h' t2)
              | inr wire =>
                  let m1 := Call_modify_s c dn
                              [(MOD_REPLACE, u"unicodePwd", [wire])] in
                  let t3 := t2 ++ [Ev m1 (raises env t2 m1)] in
                  match raises env t2 m1 with
                  | Some e => (inl e, World h' t3)
                  | None =>
                      let m2 := Call_modify_s c dn
                                  [(MOD_REPLACE, u"UserAccountControl", [u"512"])] in
                      let t4 := t3 ++ [Ev m2 (raises env t3 m2)] in
                      match raises env t3 m2 with
                      | Some e => (inl e, World h' t4)
                      | None =>
                          let ub := Call_unbind_s c in
                          (match raises env t4 ub with
                           | Some e => inl e
                           | None => inr tt
                           end,
                           World h' (t4 ++ [Ev ub (raises env t4 ub)]))
                      end
                  end
              end
          end
      end
  end.
Proof.
  intros Hd Hp Hn Hc handed create left h' t1. unfold add_user.
  rewrite bind_run, (dict_getitem_run attrs (u"unicodePwd") h t d Hd), Hp.
  cbv beta iota zeta.
  rewrite bind_run, (dict_delitem_run attrs (u"unicodePwd") h t d Hd), Hp.
  cbv beta iota zeta.
  rewrite bind_run, (dict_getitem_run attrs _ _ t _ (lookup_insert_eq _ _ _)).
  rewrite lookup_delete_ne, Hn by apply key_pwd_sam. cbv beta iota zeta.
  rewrite bind_run, lift_run, format_upn. cbv beta iota zeta.
  rewrite bind_run, (dict_setitem_run attrs _ _ _ t _ (lookup_insert_eq _ _ _)).
  rewrite insert_insert_eq. cbv beta iota zeta.
  rewrite bind_run, (dict_getitem_run attrs _ _ t _ (lookup_insert_eq _ _ _)).
  rewrite lookup_insert_ne, lookup_delete_ne, Hc
    by (apply key_upn_cn || apply key_pwd_cn). cbv beta iota zeta.
  rewrite bind_run, (dict_setitem_run attrs _ _ _ t _ (lookup_insert_eq _ _ _)).
  rewrite insert_insert_eq. cbv beta iota zeta.
  rewrite bind_run. unfold super_add_user.
  rewrite (with_dict_run attrs _ _ t _ (lookup_insert_eq _ _ _)).
  rewrite insert_insert_eq. fold handed. fold create. fold left. fold h'. fold t1.
  destruct (raises env t create) as [e|]; [done|]. cbv beta iota zeta.
  rewrite bind_run, _bind_run.
  destruct (raises env t1 Call_bind) as [e|]; [done|]. cbv beta iota zeta.
  rewrite bind_run,
    (dict_getitem_run attrs (u"cn") h' _ left (lookup_insert_eq _ _ _)).
  destruct (left !! u"cn") as [cn'|]; [|done]. cbv beta iota zeta.
  rewrite bind_run, lift_run, format_dn. cbv beta iota zeta.
  rewrite bind_run, lift_run.
  destruct (encode_utf_16_le (quote ++ password ++ quote)) as [e|wire]; [done|].
  cbv beta iota zeta. unfold modify_s, unbind_s.
  rewrite bind_run, external_run.
  destruct (raises env _ (Call_modify_s _ _ [(_, u"unicodePwd", _)])) as [e|];
    [done|].
  cbv beta iota zeta. rewrite bind_run, external_run.
  destruct (raises env _ (Call_modify_s _ _ [(_, u"UserAccountControl", _)]))
    as [e|]; [done|].
  cbv beta iota zeta. rewrite external_run. done.
Qed.

(** An incomplete mapping makes [add_user] raise [KeyError] before it
    calls anything. *)
Lemma add_user_missing_key self attrs h t d password :
  h !! attrs = Some d →
  d !! u"unicodePwd" = Some password →
  d !! u"sAMAccountName" = None ∨ d !! u"cn" = None →
  ∃ k h', add_user self attrs (World h t) = (inl (KeyError k), World h' t).
Proof.
  intros Hd Hp Hmiss. unfold add_user.
  rewrite bind_run, (dict_getitem_run attrs (u"unicodePwd") h t d Hd), Hp.
  cbv beta iota zeta.
  rewrite bind_run, (dict_delitem_run attrs (u"unicodePwd") h t d Hd), Hp.
  cbv beta iota zeta.
  rewrite bind_run, (dict_getitem_run attrs _ _ t _ (lookup_insert_eq _ _ _)).
  rewrite lookup_delete_ne by apply key_pwd_sam.
  destruct (d !! u"sAMAccountName") as [name|] eqn:Hn; [|by eauto].
  destruct Hmiss as [|Hc]; [done|]. cbv beta iota zeta.
  rewrite bind_run, lift_run, format_upn. cbv beta iota zeta.
  rewrite bind_run, (dict_setitem_run attrs _ _ _ t _ (lookup_insert_eq _ _ _)).
  rewrite insert_insert_eq. cbv beta iota zeta.
  rewrite bind_run, (dict_getitem_run attrs _ _ t _ (lookup_insert_eq _ _ _)).
  rewrite lookup_insert_ne, lookup_delete_ne, Hc
    by (apply key_upn_cn || apply key_pwd_cn).
  by eauto.
Qed.

(** What [set_attrs] does when the mapping holds a password. *)
Lemma set_attrs_run self username attrs h t d password :
  h !! attrs = Some d →
  d !! u"unicodePwd" = Some password →
  let handed := delete (u"unicodePwd") d in
  let h1 := <[attrs := handed]> h in
  let gu := Call_get_user (_byte_p2 username) NO_ATTR in
  let t1 := t ++ [Ev gu (raises env t gu)] in
  set_attrs self username attrs (World h t) =
  match raises env t gu with
  | Some e => (inl e, World h1 t1)
  | None =>
      match _set_password self (user_dn env t gu) password false (World h1 t1) with
      | (inl e, w') => (inl e, w')
      | (inr _, w') => super_set_attrs username attrs w'
      end
  end.
Proof.
  intros Hd Hp handed h1 gu t1. unfold set_attrs.
  rewrite bind_run, (dict_contains_run attrs _ h t d Hd), Hp.
  rewrite bool_decide_eq_true_2 by eauto. cbv beta iota zeta.
  rewrite bind_run, bind_run.
  rewrite (dict_getitem_run attrs (u"unicodePwd") h t d Hd), Hp.
  cbv beta iota zeta.
  rewrite bind_run, (dict_delitem_run attrs (u"unicodePwd") h t d Hd), Hp.
  cbv beta iota zeta. rewrite bind_run, _get_user_run. cbv zeta.
  fold handed. fold h1. fold gu. fold t1.
  destruct (raises env t gu) as [e|]; [done|]. cbv beta iota zeta.
  by destruct (_set_password self _ password false _) as [[e|[]] w'].
Qed.

(** What [set_attrs] does when the mapping holds no password. *)
Lemma set_attrs_run_no_password self username attrs h t d :
  h !! attrs = Some d →
  d !! u"unicodePwd" = None →
  set_attrs self username attrs (World h t) =
  super_set_attrs username attrs (World h t).
Proof.
  intros Hd Hp. unfold set_attrs.
  rewrite bind_run, (dict_contains_run attrs _ h t d Hd), Hp.
  rewrite bool_decide_eq_false_2 by (by intros [? ?]). done.
Qed.


(** What [_search_group] does, by cases on the environment. *)
Lemma _search_group_run self searchfilter groupdn_ h t :
  let t1 := t ++ [Ev Call_bind (raises env t Call_bind)] in
  _search_group self searchfilter groupdn_ (World h t) =
  match raises env t Call_bind with
  | Some e => (inl e, World h t1)
  | None =>
      let c := length t in
      let q := Call_search_s c groupdn_ SCOPE_SUBTREE (_byte_p2 searchfilter)
                 [u"CN"] in
      let ub := Call_unbind_s c in
      let t2 := t1 ++ [Ev q (raises env t1 q)] in
      let t3 := t2 ++ [Ev ub (raises env t2 ub)] in
      match raises env t1 q with
      | None =>
          (match raises env t2 ub with
           | Some e => inl e
           | None => inr (search_result env t1 q)
           end, World h t3)
      | Some e =>
          match raises env t2 ub with
          | Some e' => (inl e', World h t3)
          | None =>
              let eh := Call_exception_handler e in
              let t4 := t3 ++ [Ev eh (raises env t3 eh)] in
              match raises env t3 eh with
              | Some e' => (inl e', World h t4)
              | None =>
                  (match raises env t4 ub with
                   | Some e' => inl e'
                   | None => inl UnboundLocalError
                   end, World h (t4 ++ [Ev ub (raises env t4 ub)]))
              end
          end
      end
  end.
Proof.
  intros t1. unfold _search_group. cbv zeta.
  rewrite bind_run, _bind_run. fold t1.
  destruct (raises env t Call_bind) as [e|]; [done|]. cbv beta iota zeta.
  rewrite bind_run. unfold try_except.
  rewrite bind_run, search_s_run. cbv zeta.
  destruct (raises env t1 _) as [e|]; cbv beta iota zeta.
  - unfold unbind_s, _exception_handler.
    rewrite bind_run, external_run.
    destruct (raises env _ (Call_unbind_s _)) as [e'|]; [done|].
    cbv beta iota zeta. rewrite bind_run, external_run.
    destruct (raises env _ (Call_exception_handler _)) as [e'|]; [done|].
    cbv beta iota zeta. rewrite ret_run. cbv beta iota zeta.
    rewrite bind_run, external_run.
    by destruct (raises env _ (Call_unbind_s _)).
  - rewrite ret_run. cbv beta iota zeta. unfold unbind_s.
    rewrite bind_run, external_run.
    by destruct (raises env _ (Call_unbind_s _)).
Qed.

(** What [auth] does, by cases on the environment. *)
Lemma auth_run self username password h t :
  let c := length t in
  let t1 := t ++ [Ev Call_connect (raises env t Call_connect)] in
  let b := Call_simple_bind_s c (_byte_p2 (username ++ u"@" ++ domain self))
             (_byte_p2 password) in
  let ub := Call_unbind_s c in
  let t2 := t1 ++ [Ev b (raises env t1 b)] in
  let t3 := t2 ++ [Ev ub (raises env t2 ub)] in
  auth self username password (World h t) =
  match raises env t Call_connect with
  | Some e => (inl e, World h t1)
  | None =>
      match raises env t1 b with
      | None =>
          (match raises env t2 ub with Some e => inl e | None => inr true end,
           World h t3)
      | Some (LDAPError INVALID_CREDENTIALS) =>
          (match raises env t2 ub with Some e => inl e | None => inr false end,
           World h t3)
      | Some e => (inl e, World h t2)
      end
  end.
Proof.
  intros c t1 b ub t2 t3. unfold auth. cbv beta iota zeta.
  rewrite bind_run, _connect_run. fold t1.
  destruct (raises env t Call_connect) as [e|]; [done|]. cbv beta iota zeta.
  rewrite bind_run. unfold try_except_INVALID_CREDENTIALS.
  unfold simple_bind_s, unbind_s.
  rewrite bind_run, external_run. fold c. fold b. fold t2.
  destruct (raises env t1 b) as [e|]; cbv beta iota zeta.
  - destruct e as [| | | | | | |[]|]; try done.
    rewrite bind_run, external_run. fold ub. fold t3.
    by destruct (raises env t2 ub).
  - rewrite ret_run. cbv beta iota zeta.
    rewrite bind_run, external_run. fold ub. fold t3.
    by destruct (raises env t2 ub).
Qed.

End runs.

(* ------------------------------------------------------------------ *)
(** ** User creation and passwords *)

Section user_creation.

Context {base : Base}.

(** C4: whatever the environment does, a modification that
    [_set_password] sends is the single replace of [unicodePwd] by the
    UTF-16-LE encoding of the quoted password, and it is sent as soon as the
    password can be encoded and the service bind succeeds; the follow-up of
    [add_user] sends the same modification for the password it was given,
    its only other modification being the one of the account flags. The
    follow-up sends it exactly once, as its first modification and on the
    entry [CN=<cn>,<userdn>], whenever the entry was created, the session
    bound and the password encoded; otherwise it sends no modification at
    all. *)
Theorem C4_password_wire_value (self : Backend) (password : pystr) :
  (∀ name by_cn w,
     ∃ new,
       trace (_set_password self name password by_cn w).2 = trace w ++ new ∧
       (∀ dn ml, (dn, ml) ∈ sent_modifications new →
          ∃ wire, encode_utf_16_le (quote ++ password ++ quote) = inr wire ∧
                  ml = [(MOD_REPLACE, u"unicodePwd", [wire])]) ∧
       (∀ wire,
          encode_utf_16_le (quote ++ password ++ quote) = inr wire →
          raises env (trace w) Call_bind = None →
          sent_modifications new =
          [(_byte_p2 (if by_cn then u"CN=" ++ name ++ u"," ++ userdn self
                      else name),
            [(MOD_REPLACE, u"unicodePwd", [wire])])])) ∧
  (∀ attrs w d,
     heap w !! attrs = Some d →
     d !! u"unicodePwd" = Some password →
     ∃ new,
       trace (add_user self attrs w).2 = trace w ++ new ∧
       (∀ dn ml, (dn, ml) ∈ sent_modifications new →
          ml = [(MOD_REPLACE, u"UserAccountControl", [u"512"])] ∨
          ∃ wire, encode_utf_16_le (quote ++ password ++ quote) = inr wire ∧
                  ml = [(MOD_REPLACE, u"unicodePwd", [wire])])) ∧
  (∀ attrs w d name cn,
     heap w !! attrs = Some d →
     d !! u"unicodePwd" = Some password →
     d !! u"sAMAccountName" = Some name →
     d !! u"cn" = Some cn →
     let create :=
       Call_super_add_user attrs
         (<[u"displayName" := cn]>
            (<[u"userPrincipalName" := name ++ u"@" ++ domain self]>
               (delete (u"unicodePwd") d))) in
     let t1 := trace w ++ [Ev create None] in
     let t2 := t1 ++ [Ev Call_bind None] in
     ∃ new,
       trace (add_user self attrs w).2 = trace w ++ new ∧
       sent_modifications new =
       match raises env (trace w) create, raises env t1 Call_bind,
             parent_writes env (trace w) create !! u"cn",
             encode_utf_16_le (quote ++ password ++ quote) with
       | None, None, Some cn', inr wire =>
           let dn := _byte_p2 (u"CN=" ++ cn' ++ u"," ++ userdn self) in
           let set_pwd := [(MOD_REPLACE, u"unicodePwd", [wire])] in
           (dn, set_pwd) ::
           match raises env t2 (Call_modify_s (length t1) dn set_pwd) with
           | None => [(dn, [(MOD_REPLACE, u"UserAccountControl", [u"512"])])]
           | Some _ => []
           end
       | _, _, _, _ => []
       end).
Proof.
  split; [|split].
  3:{ intros attrs [h t] d name cn Hd Hp Hn Hc. cbn [heap trace] in *.
      cbv zeta.
      rewrite (add_user_run self attrs h t d password name cn Hd Hp Hn Hc).
      cbv zeta.
      destruct (raises env t _) as [e|].
      { eexists. split; reflexivity. }
      destruct (raises env _ Call_bind) as [e|].
      { cbn [fst snd trace]. rewrite <- app_assoc. cbn [app].
        eexists. split; reflexivity. }
      destruct (parent_writes env t _ !! u"cn") as [cn'|].
      2:{ cbn [fst snd trace]. rewrite <- app_assoc. cbn [app].
          eexists. split; reflexivity. }
      destruct (encode_utf_16_le _) as [e|wire].
      { cbn [fst snd trace]. rewrite <- app_assoc. cbn [app].
        eexists. split; reflexivity. }
      destruct (raises env _
                  (Call_modify_s _ _ [(MOD_REPLACE, u"unicodePwd", _)]))
        as [e|].
      { cbn [fst snd trace]. repeat rewrite <- app_assoc. cbn [app].
        eexists. split; reflexivity. }
      destruct (raises env _
                  (Call_modify_s _ _ [(MOD_REPLACE, u"UserAccountControl", _)]))
        as [e|].
      { cbn [fst snd trace]. repeat rewrite <- app_assoc. cbn [app].
        eexists. split; reflexivity. }
      cbn [fst snd trace]. repeat rewrite <- app_assoc. cbn [app].
      eexists. split; reflexivity. }
  - intros name by_cn [h t]. rewrite _set_password_run. cbv zeta.
    destruct (encode_utf_16_le _) as [e|wire]; simpl.
    { exists []. rewrite app_nil_r. split; [done|]. split; [|done].
      intros dn ml Hin. inversion Hin. }
    destruct (raises env t Call_bind) as [e|]; simpl.
    { eexists. split; [done|]. split; [|done].
      intros dn ml Hin. inversion Hin. }
    rewrite <- app_assoc. eexists. split; [done|]. simpl. split.
    + intros dn ml [= -> ->]%list_elem_of_singleton. eauto.
    + by intros ? [= <-] _.
  - intros attrs [h t] d Hd Hp. simpl in Hd.
    destruct (d !! u"sAMAccountName") as [name|] eqn:Hn;
      [destruct (d !! u"cn") as [cn|] eqn:Hc|].
    2,3: destruct (add_user_missing_key self attrs h t d password Hd Hp)
           as (k & h' & ->); [by auto|];
         exists []; simpl; rewrite app_nil_r; split; [done|];
         intros dn ml Hin; inversion Hin.
    rewrite (add_user_run self attrs h t d password name cn Hd Hp Hn Hc).
    cbv zeta.
    repeat (case_scrutinee; cbn [fst snd trace]).
    all: rewrite <- ?app_assoc; cbn [app]; eexists; (split; [reflexivity|]).
    all: cbn; intros dn ml Hin.
    all: repeat (apply elem_of_cons in Hin as [Hin|Hin];
                 [injection Hin as -> ->; eauto|]).
    all: inversion Hin.
Qed.

(** C2: [add_user] puts [userPrincipalName = <sAMAccountName>@<domain>]
    into the attributes and only then calls the generic [add_user], which is
    its first call. When nothing fails the calls that follow are exactly:
    bind, replace [unicodePwd] by the encoded password, replace
    [UserAccountControl] by [512] (the flag [NORMAL_ACCOUNT], without
    [ACCOUNTDISABLE]), unbind. Whatever fails, the method stops at the
    failing call with its exception, and it never calls [delete_s]. *)
Theorem C2_user_creation_sequence self attrs w d password name cn :
  heap w !! attrs = Some d →
  d !! u"unicodePwd" = Some password →
  d !! u"sAMAccountName" = Some name →
  d !! u"cn" = Some cn →
  let handed :=
    <[u"displayName" := cn]>
      (<[u"userPrincipalName" := name ++ u"@" ++ domain self]>
         (delete (u"unicodePwd") d)) in
  let create := Call_super_add_user attrs handed in
  let r := add_user self attrs w in
  handed !! u"userPrincipalName" = Some (name ++ u"@" ++ domain self) ∧
  (∃ rest,
     trace r.2 = trace w ++ Ev create (raises env (trace w) create) :: rest ∧
     Forall (fun e => is_delete e = false) rest ∧
     stops_at_failure (Ev create (raises env (trace w) create) :: rest) r.1) ∧
  (∀ wire cn',
     (∀ t q, raises env t q = None) →
     parent_writes env (trace w) create !! u"cn" = Some cn' →
     encode_utf_16_le (quote ++ password ++ quote) = inr wire →
     let c := S (length (trace w)) in
     let dn := _byte_p2 (u"CN=" ++ cn' ++ u"," ++ userdn self) in
     r.1 = inr tt ∧
     trace r.2 = trace w ++ [
       Ev create None;
       Ev Call_bind None;
       Ev (Call_modify_s c dn [(MOD_REPLACE, u"unicodePwd", [wire])]) None;
       Ev (Call_modify_s c dn [(MOD_REPLACE, u"UserAccountControl", [u"512"])]) None;
       Ev (Call_unbind_s c) None
     ]) ∧
  u"512" = str_of_N NORMAL_ACCOUNT ∧
  N.land NORMAL_ACCOUNT ACCOUNTDISABLE = 0.
Proof.
  destruct w as [h t]. cbn [heap trace]. intros Hd Hp Hn Hc.
  rewrite (add_user_run self attrs h t d password name cn Hd Hp Hn Hc).
  cbv zeta. split; [|split; [|split; [|split]]].
  - rewrite lookup_insert_ne by apply key_dn_upn. apply lookup_insert_eq.
  - repeat (case_scrutinee; cbn [fst snd trace]).
    all: rewrite <- ?app_assoc; cbn [app]; eexists; (split; [reflexivity|]).
    all: split; [repeat constructor | by repeat split].
  - intros wire cn' Hquiet Hcn' Henc.
    repeat (rewrite ?Hquiet, ?Hcn', ?Henc; cbn [fst snd trace]).
    rewrite <- !app_assoc, length_app. cbn [app length].
    by rewrite Nat.add_1_r.
  - by vm_compute.
  - by vm_compute.
Qed.


End user_creation.

(* ------------------------------------------------------------------ *)
(** ** Sessions *)

Section sessions.

Context {base : Base}.

(** [_search_group] closes the session it opened exactly once, provided
    [_exception_handler] re-raises, as its use in the source assumes. *)
Lemma _search_group_scoped self searchfilter groupdn_ h :
  (∀ t e, raises env t (Call_exception_handler e) ≠ None) →
  scoped (trace (_search_group self searchfilter groupdn_ (World h [])).2) = true.
Proof.
  intros Hreraise. rewrite _search_group_run. cbv zeta.
  repeat (case_scrutinee; cbn [snd trace app]); try done.
  match goal with
  | H : raises env _ (Call_exception_handler _) = None |- _ =>
      by destruct (Hreraise _ _ H)
  end.
Qed.

(** [auth] closes the session whenever the bind went through. *)
Lemma auth_scoped self username password h :
  scoped (trace (auth self username password (World h [])).2) = true.
Proof.
  rewrite auth_run. cbv zeta.
  repeat (case_scrutinee; cbn [snd trace app]); done.
Qed.

(** [_set_password] never calls [unbind_s]: once bound, its session stays
    open. *)
Lemma _set_password_leaks self name password by_cn h wire :
  encode_utf_16_le (quote ++ password ++ quote) = inr wire →
  raises env [] Call_bind = None →
  leaked (trace (_set_password self name password by_cn (World h [])).2) = [0%nat].
Proof.
  intros Henc Hbind. rewrite _set_password_run. cbv zeta.
  rewrite Henc, Hbind. done.
Qed.

(** C5: [auth] connects and binds as [<username>@<domain>] on the fresh
    connection. It returns [True] when the bind succeeds and [False] when
    the bind raises [INVALID_CREDENTIALS], closing the connection in both
    cases; an exception of any other call or kind is raised to the
    caller. *)
Theorem C5_authenticate self username password w :
  let c := length (trace w) in
  let t1 := trace w ++ [Ev Call_connect (raises env (trace w) Call_connect)] in
  let b := Call_simple_bind_s c (_byte_p2 (username ++ u"@" ++ domain self))
             (_byte_p2 password) in
  let t2 := t1 ++ [Ev b (raises env t1 b)] in
  let ub := Call_unbind_s c in
  let t3 := t2 ++ [Ev ub (raises env t2 ub)] in
  let out := auth self username password w in
  (∀ e, raises env (trace w) Call_connect = Some e →
        out.1 = inl e ∧ trace out.2 = t1) ∧
  (raises env (trace w) Call_connect = None →
   (raises env t1 b = None → raises env t2 ub = None →
      out.1 = inr true ∧ trace out.2 = t3) ∧
   (raises env t1 b = Some (LDAPError INVALID_CREDENTIALS) →
    raises env t2 ub = None →
      out.1 = inr false ∧ trace out.2 = t3) ∧
   (∀ e, raises env t1 b = Some e → e ≠ LDAPError INVALID_CREDENTIALS →
      out.1 = inl e ∧ trace out.2 = t2) ∧
   (∀ e, raises env t1 b = None ∨
         raises env t1 b = Some (LDAPError INVALID_CREDENTIALS) →
      raises env t2 ub = Some e →
      out.1 = inl e ∧ trace out.2 = t3)).
Proof.
  destruct w as [h t]. cbv zeta. cbn [trace]. rewrite auth_run. cbv zeta.
  split; [by intros e ->|]. intros ->. split; [|split; [|split]].
  - by intros -> ->.
  - by intros -> ->.
  - intros e Hb Hne. rewrite Hb.
    by destruct e as [| | | | | | |[]|].
  - intros e [Hb|Hb] Hu; rewrite Hb in Hu |- *; by rewrite Hu.
Qed.

End sessions.

(* ------------------------------------------------------------------ *)
(** ** Groups of a user *)

Section groups.

Context {base : Base}.

(** The loop of [get_groups] over entries that all carry a [cn]. *)
Lemma for_in_group_names (l : list entry) (acc : list pystr) w :
  Forall (fun e => is_Some (first_cn e)) l →
  for_in l (fun ret e => cn ← entry_cn e; mret (ret ++ [_uni cn])) acc w =
  (inr (acc ++ group_names l), w).
Proof.
  intros Hall. revert acc.
  induction Hall as [|e l [v Hv] _ IH]; intros acc; cbn [for_in].
  - unfold group_names. cbn [omap]. by rewrite app_nil_r.
  - rewrite bind_run, bind_run.
    assert (entry_cn e w = (inr v, w)) as ->.
    { unfold entry_cn. unfold first_cn in Hv.
      destruct (e.2 !! u"cn") as [[|v' vs]|]; by simplify_eq. }
    cbv beta iota zeta. rewrite ret_run. cbv beta iota zeta.
    rewrite IH. unfold group_names. cbn [omap list_omap]. rewrite Hv.
    cbn [fmap option_fmap option_map]. by rewrite <- app_assoc.
Qed.

(** The loop calls nothing, also when it fails. *)
Lemma for_in_group_names_world (l : list entry) (acc : list pystr) w :
  (for_in l (fun ret e => cn ← entry_cn e; mret (ret ++ [_uni cn])) acc w).2 = w.
Proof.
  revert acc. induction l as [|e l IH]; intros acc; cbn [for_in]; [done|].
  rewrite bind_run, bind_run. unfold entry_cn.
  destruct (e.2 !! u"cn") as [[|v vs]|]; try done.
  rewrite ret_run. cbv beta iota zeta. rewrite ret_run. apply IH.
Qed.

(** What [get_groups] does when no call fails. *)
Lemma get_groups_run self username h t :
  (∀ t q, raises env t q = None) →
  group_filter_tmpl self = u"(member=%(userdn)s)" →
  let user := escape_filter_chars username in
  let gu := Call_get_user (_byte_p2 user) NO_ATTR in
  let f := _byte_p2 (u"(member=" ++ user_dn env t gu ++ u")") in
  let t1 := t ++ [Ev gu None] in
  let q1 := Call_search_s (length t1) (groupdn self) SCOPE_SUBTREE f [u"CN"] in
  let t2 := t1 ++ [Ev Call_bind None] in
  let t3 := (t2 ++ [Ev q1 None]) ++ [Ev (Call_unbind_s (length t1)) None] in
  let q2 := Call_search_s (length t3) (builtin self) SCOPE_SUBTREE f [u"CN"] in
  let t4 := t3 ++ [Ev Call_bind None] in
  let t5 := (t4 ++ [Ev q2 None]) ++ [Ev (Call_unbind_s (length t3)) None] in
  let groups := search_result env t2 q1 ++ search_result env t4 q2 in
  get_groups self username (World h t) =
  for_in groups (fun ret e => cn ← entry_cn e; mret (ret ++ [_uni cn])) []
    (World h (t5 ++ [Ev (Call_logger DEBUG (backend_name self) user groups) None])).
Proof.
  intros Hquiet Htmpl user gu f t1 q1 t2 t3 q2 t4 t5 groups.
  unfold get_groups. cbv zeta. fold user.
  rewrite bind_run, _get_user_run. cbv zeta. fold gu. rewrite Hquiet.
  cbv beta iota zeta. fold t1.
  rewrite bind_run, lift_run, Htmpl, format_member. cbv beta iota zeta.
  rewrite bind_run, _search_group_run. cbv zeta. rewrite !Hquiet.
  cbv beta iota zeta. fold f. fold q1. fold t2. fold t3.
  rewrite bind_run, _search_group_run. cbv zeta. rewrite !Hquiet.
  cbv beta iota zeta. fold f. fold q2. fold t4. fold t5. fold groups.
  rewrite bind_run. unfold _logger. rewrite external_run, Hquiet. done.
Qed.

(** C6 (as amended): when no call fails, [get_groups] searches the
    ordinary group container and then the builtin container, and returns
    the names found in the first followed by the names found in the second.
    A name is in the result exactly when one of the searches found it, and
    the result is free of duplicates exactly when each search's names are
    and the two searches share no name. *)
Theorem C6_groups_of_user self username w :
  (∀ t q, raises env t q = None) →
  group_filter_tmpl self = u"(member=%(userdn)s)" →
  let user := escape_filter_chars username in
  let gu := Call_get_user (_byte_p2 user) NO_ATTR in
  let f := _byte_p2 (u"(member=" ++ user_dn env (trace w) gu ++ u")") in
  let t1 := trace w ++ [Ev gu None] in
  let q1 := Call_search_s (length t1) (groupdn self) SCOPE_SUBTREE f [u"CN"] in
  let t2 := t1 ++ [Ev Call_bind None] in
  let t3 := (t2 ++ [Ev q1 None]) ++ [Ev (Call_unbind_s (length t1)) None] in
  let q2 := Call_search_s (length t3) (builtin self) SCOPE_SUBTREE f [u"CN"] in
  let t4 := t3 ++ [Ev Call_bind None] in
  let found1 := search_result env t2 q1 in
  let found2 := search_result env t4 q2 in
  let out := get_groups self username w in
  Ev q1 None ∈ trace out.2 ∧
  Ev q2 None ∈ trace out.2 ∧
  (Forall (fun e => is_Some (first_cn e)) (found1 ++ found2) →
   out.1 = inr (group_names found1 ++ group_names found2) ∧
   (∀ g, g ∈ group_names found1 ++ group_names found2 ↔
         g ∈ group_names found1 ∨ g ∈ group_names found2) ∧
   (NoDup (group_names found1 ++ group_names found2) ↔
    NoDup (group_names found1) ∧
    (∀ g, g ∈ group_names found1 → g ∉ group_names found2) ∧
    NoDup (group_names found2))).
Proof.
  intros Hquiet Htmpl. destruct w as [h t]. cbv zeta. cbn [trace].
  rewrite (get_groups_run self username h t Hquiet Htmpl). cbv zeta.
  split; [|split].
  - rewrite for_in_group_names_world. cbn [trace].
    rewrite !elem_of_app, !list_elem_of_singleton. tauto.
  - rewrite for_in_group_names_world. cbn [trace].
    rewrite !elem_of_app, !list_elem_of_singleton. tauto.
  - intros Hall. rewrite (for_in_group_names _ _ _ Hall). cbn [fst].
    split; [|split].
    + unfold group_names. by rewrite omap_app.
    + intros g. apply elem_of_app.
    + apply NoDup_app.
Qed.

End groups.

(* ------------------------------------------------------------------ *)
(** ** Loading the role catalog *)

Section role_catalog.





(** The fixtures of the test suite, one per test. *)
Example testNominal : ∃ roles, load_roles (Some roles_yml) = inr roles.
Proof. eexists. vm_compute. reflexivity. Qed.

Example testMissingDisplayName :
  load_roles (Some roles_missing_diplay_name_yml) = inl MissingKey.
Proof. reflexivity. Qed.

Example testMissingBackends :
  load_roles (Some roles_missing_backends_yml) = inl MissingKey.
Proof. reflexivity. Qed.

Example testRoleKeyDuplication :
  load_roles (Some roles_key_dup_yml) = inl DuplicateRoleKey.
Proof. by vm_compute. Qed.

Example testNoFile : load_roles None = inl MissingRolesFile.
Proof. reflexivity. Qed.

Example testRoleContentDuplication :
  load_roles (Some roles_content_dup_yml) = inl DuplicateRoleContent.
Proof. by vm_compute. Qed.

End role_catalog.

(* ------------------------------------------------------------------ *)
(** ** The sample directory *)

Section samples.

Lemma sample_configured e :
  configured (H := sample_base e) (u"dc.ldapcherry.org") (u"Administrator").
Proof. unfold configured. repeat split; try eexists; try split; reflexivity. Qed.

Lemma sample_cn_declared e :
  _byte_p2 (Base := sample_base e) (u"cn") ∈
  _byte_p2 (Base := sample_base e) <$> sample_attrlist.
Proof. apply (bool_decide_unpack _). by vm_compute. Qed.

Lemma sample_unicodePwd_declared e :
  _byte_p2 (Base := sample_base e) (u"unicodePwd") ∈
  _byte_p2 (Base := sample_base e) <$> sample_attrlist.
Proof. apply (bool_decide_unpack _). by vm_compute. Qed.

(** The quoted sample password on the wire. *)
Example sample_password_wire :
  encode_utf_16_le (quote ++ u"s3cret" ++ quote) =
  inr [34; 0; 115; 0; 51; 0; 99; 0; 114; 0; 101; 0; 116; 0; 34; 0].
Proof. reflexivity. Qed.

(** A character outside the basic plane is sent as a surrogate pair, a
    lone surrogate cannot be encoded. *)
Example astral_password_wire :
  encode_utf_16_le [0x1F600] = inr [0x3D; 0xD8; 0x00; 0xDE] ∧
  encode_utf_16_le [0xD800] = inl UnicodeEncodeError.
Proof. split; reflexivity. Qed.

Lemma C1_group_reference_resolution_witness :
  ∃ self,
    __init__ (base := sample_base quiet) (u"ad") sample_attrlist (u"uid") empty_world
      = (inr self, empty_world) ∧
    _build_groupdn self [u"Administrators"; u"staff"] =
      [u"cn=Administrators,CN=Builtin,dc=dc,DC=ldapcherry,DC=org";
       u"cn=staff,OU=Users,OU=dc,dc=dc,DC=ldapcherry,DC=org"].
Proof.
  destruct (C1_group_reference_resolution (base := sample_base quiet)
              (u"ad") sample_attrlist (u"uid") empty_world
              (u"dc.ldapcherry.org") (u"Administrator")
              (sample_configured quiet) (sample_cn_declared quiet)
              (sample_unicodePwd_declared quiet))
    as (self & Hinit & _ & Hmap & _).
  exists self. split; [exact Hinit|]. rewrite Hmap.
  unfold sample_attrlist in Hinit.
  rewrite sample_self_init in Hinit. injection Hinit as <-.
  vm_compute. reflexivity.
Defined.

Lemma C3_required_attributes_witness :
  __init__ (base := sample_base quiet) (u"ad") [u"cn"; u"sAMAccountName"]
    (u"uid") empty_world = (inl MissingAttr, empty_world).
Proof.
  apply (C3_required_attributes (base := sample_base quiet)
           (u"ad") [u"cn"; u"sAMAccountName"] (u"uid") empty_world
           (u"dc.ldapcherry.org") (u"Administrator")).
  - intros x y Hxy. exact Hxy.
  - exact (sample_configured quiet).
  - right. intros Hin. apply (bool_decide_pack _) in Hin.
    vm_compute in Hin. exact Hin.
Defined.

Lemma C7_dn_derivation_witness :
  ∃ self,
    __init__ (base := sample_base quiet) (u"ad") sample_attrlist (u"uid") empty_world
      = (inr self, empty_world) ∧
    userdn self = u"OU=Users,OU=dc,dc=dc,DC=ldapcherry,DC=org" ∧
    groupdn self = u"OU=Users,OU=dc,dc=dc,DC=ldapcherry,DC=org" ∧
    builtin self = u"CN=Builtin,dc=dc,DC=ldapcherry,DC=org".
Proof.
  destruct (C7_dn_derivation (base := sample_base quiet)
              (u"ad") sample_attrlist (u"uid") empty_world
              (u"dc.ldapcherry.org") (u"Administrator")
              (sample_configured quiet) (sample_cn_declared quiet)
              (sample_unicodePwd_declared quiet))
    as (self & Hinit & _ & Hu & Hg & Hb & _).
  exists self. split; [exact Hinit|].
  rewrite Hg, Hu, Hb. repeat split; vm_compute; reflexivity.
Defined.

(** C7, as first stated, fails: the base DN of [dc.ldapcherry.org] starts
    with a lower-case [dc=], the join of [DC=] segments does not. *)
Lemma C7_dn_derivation_counterexample :
  ∃ self,
    __init__ (base := sample_base quiet) (u"ad") sample_attrlist (u"uid") empty_world
      = (inr self, empty_world) ∧
    domain self = u"dc.ldapcherry.org" ∧
    spec_basedn (domain self) = u"DC=dc,DC=ldapcherry,DC=org" ∧
    builtin self = u"CN=Builtin,dc=dc,DC=ldapcherry,DC=org" ∧
    builtin self ≠ u"CN=Builtin," ++ spec_basedn (domain self) ∧
    userdn self ≠ u"OU=Users,OU=dc," ++ spec_basedn (domain self).
Proof.
  exists sample_self. split; [exact sample_self_init|].
  repeat split; by vm_compute.
Qed.

Lemma C2_user_creation_sequence_witness :
  let out := add_user (base := sample_base quiet) sample_self 0 sample_world in
  let dn := u"CN=John Doe,OU=Users,OU=dc,dc=dc,DC=ldapcherry,DC=org" in
  out.1 = inr tt ∧
  trace out.2 = [
    Ev (Call_super_add_user 0
          (list_to_map [
             (u"cn", u"John Doe");
             (u"sAMAccountName", u"jdoe");
             (u"userPrincipalName", u"jdoe@dc.ldapcherry.org");
             (u"displayName", u"John Doe")])) None;
    Ev Call_bind None;
    Ev (Call_modify_s 1 dn
          [(MOD_REPLACE, u"unicodePwd",
            [[34; 0; 115; 0; 51; 0; 99; 0; 114; 0; 101; 0; 116; 0; 34; 0]])])
       None;
    Ev (Call_modify_s 1 dn [(MOD_REPLACE, u"UserAccountControl", [u"512"])])
       None;
    Ev (Call_unbind_s 1) None
  ].
Proof.
  destruct (C2_user_creation_sequence (base := sample_base quiet)
              sample_self 0%nat sample_world sample_attrs
              (u"s3cret") (u"jdoe") (u"John Doe")
              eq_refl eq_refl eq_refl eq_refl)
    as (_ & _ & Hok & _).
  destruct (Hok [34; 0; 115; 0; 51; 0; 99; 0; 114; 0; 101; 0; 116; 0; 34; 0]
              (u"John Doe") (fun _ _ => eq_refl) eq_refl eq_refl)
    as [Hres Htrace].
  cbv zeta. split; [exact Hres|]. rewrite Htrace. vm_compute. reflexivity.
Defined.


Lemma C6_groups_of_user_witness :
  (get_groups (base := sample_base two_groups_named_Users) sample_self
     (u"jdoe") empty_world).1 = inr [u"Users"; u"Users"].
Proof.
  destruct (C6_groups_of_user (base := sample_base two_groups_named_Users)
              sample_self (u"jdoe") empty_world
              (fun _ _ => eq_refl) eq_refl)
    as (_ & _ & Hout).
  destruct Hout as (Hres & _).
  - repeat constructor; eexists; reflexivity.
  - rewrite Hres. vm_compute. reflexivity.
Defined.

(** C6, as first stated, fails: with a group named [Users] in each
    container, the name comes back twice. *)
Lemma C6_groups_of_user_counterexample :
  ∃ groups,
    (get_groups (base := sample_base two_groups_named_Users) sample_self
       (u"jdoe") empty_world).1 = inr groups ∧
    ¬ NoDup groups.
Proof.
  exists [u"Users"; u"Users"]. split; [by vm_compute|].
  intros Hnd. apply NoDup_cons in Hnd as [Hnotin _].
  apply Hnotin. left.
Qed.

(** C8 does not hold of the code. In a directory where nothing fails,
    [_set_password] binds a session and returns without closing it; where
    modifications are refused, [add_user] raises out of its follow-up
    with the session still open. *)
Theorem C8_sessions_left_open :
  (let out := _set_password (base := sample_base quiet) sample_self
                (u"John Doe") (u"s3cret") true empty_world in
   out.1 = inr tt ∧
   ev_call <$> trace out.2 =
     [Call_bind;
      Call_modify_s 0 (u"CN=John Doe,OU=Users,OU=dc,dc=dc,DC=ldapcherry,DC=org")
        [(MOD_REPLACE, u"unicodePwd",
          [[34; 0; 115; 0; 51; 0; 99; 0; 114; 0; 101; 0; 116; 0; 34; 0]])]] ∧
   bound (trace out.2) = [0%nat] ∧
   unbinds 0 (trace out.2) = 0%nat ∧
   scoped (trace out.2) = false) ∧
  (let out := add_user (base := sample_base refusing_modifications) sample_self
                0 sample_world in
   out.1 = inl (LDAPError (OTHER_LDAP_ERROR 53)) ∧
   bound (trace out.2) = [1%nat] ∧
   unbinds 1 (trace out.2) = 0%nat ∧
   scoped (trace out.2) = false).
Proof. cbv zeta. repeat split; by vm_compute. Qed.

(** Where the directory works, the other session-opening paths close
    their session. *)
Example sessions_closed :
  scoped (trace (add_user (base := sample_base quiet) sample_self 0
                   sample_world).2) = true ∧
  scoped (trace (get_groups (base := sample_base quiet) sample_self (u"jdoe")
                   empty_world).2) = true ∧
  auth (base := sample_base quiet) sample_self (u"jdoe") (u"s3cret") empty_world
    = (inr true,
       World ∅ [Ev Call_connect None;
                Ev (Call_simple_bind_s 0 (u"jdoe@dc.ldapcherry.org") (u"s3cret"))
                   None;
                Ev (Call_unbind_s 0) None]) ∧
  (auth (base := sample_base rejecting_credentials) sample_self (u"jdoe")
     (u"wrong") empty_world).1 = inr false ∧
  (auth (base := sample_base server_down) sample_self (u"jdoe")
     (u"s3cret") empty_world).1 = inl (LDAPError SERVER_DOWN).
Proof. repeat split; by vm_compute. Qed.

End samples.

(* ------------------------------------------------------------------ *)
(** ** Further properties: the wire encoding *)

Section wire.

Lemma encode_utf_16_le_error (s : pystr) (e : exn) :
  encode_utf_16_le s = inl e → e = UnicodeEncodeError.
Proof.
  induction s as [|c s IH]; [done|]. rewrite encode_utf_16_le_cons.
  destruct (utf16_le_code_point c); [|by intros [= <-]].
  destruct (encode_utf_16_le s); [|done]. intros [= <-]. by apply IH.
Qed.

Lemma encode_utf_16_le_app (s t : pystr) :
  encode_utf_16_le (s ++ t) =
  match encode_utf_16_le s with
  | inl e => inl e
  | inr bs =>
      match encode_utf_16_le t with
      | inl e => inl e
      | inr bt => inr (bs ++ bt)
      end
  end.
Proof.
  induction s as [|c s IH]; cbn [app].
  - change (encode_utf_16_le []) with (@inr exn bytes []).
    by destruct (encode_utf_16_le t).
  - rewrite !encode_utf_16_le_cons, IH.
    destruct (utf16_le_code_point c); [|done].
    destruct (encode_utf_16_le s); [done|].
    destruct (encode_utf_16_le t); [done|]. by rewrite app_assoc.
Qed.

Lemma encode_utf_16_le_surrogate (s : pystr) :
  Exists (fun c => is_surrogate c = true) s →
  encode_utf_16_le s = inl UnicodeEncodeError.
Proof.
  induction 1 as [c s Hc|c s _ IH]; rewrite encode_utf_16_le_cons.
  - unfold utf16_le_code_point. rewrite Hc.
    destruct (c <? 0x10000) eqn:Hbmp; [done|].
    unfold is_surrogate in Hc. apply andb_true_iff in Hc as [_ Hc].
    apply N.leb_le in Hc. apply N.ltb_ge in Hbmp. lia.
  - rewrite IH. by destruct (utf16_le_code_point c).
Qed.

Lemma utf16_unit_le_octets (w : N) :
  w < 0x10000 → Forall (fun x => x < 256) (utf16_unit_le w).
Proof.
  intros Hw. unfold utf16_unit_le. repeat constructor.
  - change 0xFF with (N.ones 8). rewrite N.land_ones.
    change (2 ^ 8) with 256. apply N.mod_lt. lia.
  - rewrite N.shiftr_div_pow2. change (2 ^ 8) with 256.
    apply N.Div0.div_lt_upper_bound. lia.
Qed.

Lemma utf16_le_code_point_octets (c : N) (b : bytes) :
  utf16_le_code_point c = Some b →
  Forall (fun x => x < 256) b ∧ (length b = 2 ∨ length b = 4)%nat.
Proof.
  unfold utf16_le_code_point.
  destruct (c <? 0x10000) eqn:Hbmp.
  - destruct (is_surrogate c); [done|]. intros [= <-].
    apply N.ltb_lt in Hbmp. split; [by apply utf16_unit_le_octets|by left].
  - destruct (c <=? 0x10FFFF) eqn:Hmax; [|done]. intros [= <-].
    apply N.ltb_ge in Hbmp. apply N.leb_le in Hmax.
    assert (N.shiftr (c - 0x10000) 10 < 1024).
    { rewrite N.shiftr_div_pow2. change (2 ^ 10) with 1024.
      apply N.Div0.div_lt_upper_bound. lia. }
    assert (N.land (c - 0x10000) 0x3FF < 1024).
    { change 0x3FF with (N.ones 10). rewrite N.land_ones.
      change (2 ^ 10) with 1024. apply N.mod_lt. lia. }
    split; [|by right].
    apply (Forall_app_2 _ (utf16_unit_le _) (utf16_unit_le _));
      apply utf16_unit_le_octets; lia.
Qed.

(** X1: whatever [encode('utf-16-le')] returns consists of octets, two
    or four per character of the string. *)
Theorem X1_wire_octets (s : pystr) (b : bytes) :
  encode_utf_16_le s = inr b →
  Forall (fun x => x < 256) b ∧
  Nat.Even (length b) ∧
  (2 * length s ≤ length b ≤ 4 * length s)%nat.
Proof.
  revert b. induction s as [|c s IH]; intros b.
  - intros [= <-]. repeat split; [constructor|by exists 0%nat|done|done].
  - rewrite encode_utf_16_le_cons.
    destruct (utf16_le_code_point c) as [bc|] eqn:Hc; [|done].
    destruct (encode_utf_16_le s) as [e|bs]; [done|]. intros [= <-].
    destruct (utf16_le_code_point_octets c bc Hc) as [Hoct Hlen].
    destruct (IH bs eq_refl) as (Hbs & [k Hk] & Hlo & Hhi).
    rewrite length_app. cbn [length]. repeat split.
    + by apply Forall_app.
    + destruct Hlen as [-> | ->]; [exists (S k)|exists (S (S k))]; lia.
    + lia.
    + lia.
Qed.

(** X2: the value sent for a password determines the password: it decodes
    to the quoted password, and two passwords with the same wire value are
    the same password. *)
Theorem X2_wire_value_determines_password (p1 p2 : pystr) (wire : bytes) :
  encode_utf_16_le (quote ++ p1 ++ quote) = inr wire →
  encode_utf_16_le (quote ++ p2 ++ quote) = inr wire →
  decode_utf_16_le wire = Some (quote ++ p1 ++ quote) ∧ p1 = p2.
Proof.
  intros H1%encode_utf_16_le_roundtrip H2%encode_utf_16_le_roundtrip.
  split; [done|]. rewrite H1 in H2. injection H2 as H2.
  by apply app_inv_tail in H2.
Qed.

End wire.

Lemma X1_wire_octets_witness :
  Forall (fun x => x < 256)
    [34; 0; 115; 0; 51; 0; 99; 0; 114; 0; 101; 0; 116; 0; 34; 0] ∧
  Nat.Even 16 ∧ (2 * 8 ≤ 16 ≤ 4 * 8)%nat.
Proof.
  exact (X1_wire_octets (quote ++ u"s3cret" ++ quote) _ eq_refl).
Defined.

Lemma X2_wire_value_determines_password_witness :
  decode_utf_16_le
    [34; 0; 115; 0; 51; 0; 99; 0; 114; 0; 101; 0; 116; 0; 34; 0]
  = Some (quote ++ u"s3cret" ++ quote) ∧ u"s3cret" = u"s3cret".
Proof.
  exact (X2_wire_value_determines_password (u"s3cret") (u"s3cret") _
           eq_refl eq_refl).
Defined.

(* ------------------------------------------------------------------ *)
(** ** Further properties: integers as bytes *)

Section integers.

Lemma from_bytes_big_tobyte (n : N) :
  n < 2 ^ 32 →
  from_bytes_big [N.shiftr n 24; N.land (N.shiftr n 16) 0xFF;
                  N.land (N.shiftr n 8) 0xFF; N.land n 0xFF] = n.
Proof.
  intros Hn. unfold from_bytes_big. cbn [foldl].
  change 0xFF with (N.ones 8). rewrite !N.land_ones, !N.shiftr_div_pow2.
  change (2 ^ 8) with 256. change (2 ^ 16) with (256 * 256).
  change (2 ^ 24) with (256 * 256 * 256).
  rewrite <- !N.Div0.div_div.
  pose proof (N.div_mod n 256). pose proof (N.div_mod (n / 256) 256).
  pose proof (N.div_mod (n / 256 / 256) 256). lia.
Qed.

(** X3: [_tobyte] accepts exactly the integers from 0 to 2^32 - 1; what it
    returns is four octets, most significant first, from which the integer
    is read back. *)
Theorem X3_tobyte_round_trip (in_int : Z) :
  (_tobyte in_int = None ↔ (in_int < 0 ∨ 2 ^ 32 ≤ in_int)%Z) ∧
  (∀ b, _tobyte in_int = Some b →
        length b = 4%nat ∧
        Forall (fun x => x < 256) b ∧
        Z.of_N (from_bytes_big b) = in_int).
Proof.
  unfold _tobyte.
  destruct ((0 <=? in_int) && (in_int <? 2 ^ 32))%Z eqn:Hr.
  - apply andb_true_iff in Hr as [H0 H1].
    apply Z.leb_le in H0. apply Z.ltb_lt in H1.
    split; [split; [done|lia]|]. intros b [= <-].
    assert (Hn : Z.to_N in_int < 2 ^ 32).
    { change (2 ^ 32) with (Z.to_N (2 ^ 32)). lia. }
    split; [done|]. split.
    + repeat constructor.
      * rewrite N.shiftr_div_pow2. apply N.Div0.div_lt_upper_bound.
        change (2 ^ 24 * 256) with (2 ^ 32). exact Hn.
      * change 0xFF with (N.ones 8). rewrite N.land_ones. by apply N.mod_lt.
      * change 0xFF with (N.ones 8). rewrite N.land_ones. by apply N.mod_lt.
      * change 0xFF with (N.ones 8). rewrite N.land_ones. by apply N.mod_lt.
    + rewrite from_bytes_big_tobyte by done. lia.
  - split; [|done]. split; [|done]. intros _.
    apply andb_false_iff in Hr as [Hr|Hr].
    + apply Z.leb_gt in Hr. lia.
    + apply Z.ltb_ge in Hr. lia.
Qed.

End integers.

(* ------------------------------------------------------------------ *)
(** ** Further properties: initialisation *)

Section more_init.

Context {base : Base}.

#[local] Arguments getenv : simpl never.

Lemma init_credentials name attrslist key_ w self w' :
  __init__ name attrslist key_ w = (inr self, w') →
  ∃ vl vp,
    get_param (u"login") None = inr vl ∧
    getenv (u"AD_LOGIN") vl = VStr (login self) ∧
    get_param (u"password") None = inr vp ∧
    bindpassword self = getenv (u"PASSWORD") vp.
Proof.
  unfold __init__. unfold_M. simpl.
  repeat (case_scrutinee; simpl; try done).
  intros [= <- <-]. simpl. eauto 10.
Qed.

(** X5: the service account of a backend is [<login>@<domain>], where the
    login is the value of [AD_LOGIN] in the process environment when it is
    set and the configured [login] otherwise; likewise the bind password is
    the value of [PASSWORD] when it is set and the configured [password]
    otherwise. *)
Theorem X5_credentials_from_environment name attrslist key_ w self w' :
  __init__ name attrslist key_ w = (inr self, w') →
  binddn self = login self ++ u"@" ++ domain self ∧
  match os_environ !! u"AD_LOGIN" with
  | Some l => login self = l
  | None => get_param (u"login") None = inr (VStr (login self))
  end ∧
  match os_environ !! u"PASSWORD" with
  | Some p => bindpassword self = VStr p
  | None => get_param (u"password") None = inr (bindpassword self)
  end.
Proof.
  intros Hinit.
  destruct (init_inv _ _ _ _ _ _ Hinit) as (_ & _ & _ & _ & _ & Hb & _).
  destruct (init_credentials _ _ _ _ _ _ Hinit) as (vl & vp & Hl & Hl' & Hp & Hp').
  split; [exact Hb|]. unfold getenv in Hl', Hp'. split.
  - destruct (os_environ !! u"AD_LOGIN"); [congruence|]. by rewrite Hl, Hl'.
  - destruct (os_environ !! u"PASSWORD"); [done|]. by rewrite Hp, Hp'.
Qed.

(** X6: the configured [login] is read before the process environment is
    consulted: when it is missing, [__init__] fails with the error of
    [get_param], also when [AD_LOGIN] is set. *)
Theorem X6_login_parameter_required name attrslist key_ w v1 v2 e :
  get_param (u"display_name") None = inr v1 →
  get_param (u"domain") None = inr v2 →
  get_param (u"login") None = inl e →
  __init__ name attrslist key_ w = (inl e, w).
Proof.
  intros H1 H2 H3. unfold __init__.
  rewrite bind_run, lift_run, H1. cbv beta iota zeta.
  rewrite bind_run, lift_run, H2. cbv beta iota zeta.
  by rewrite bind_run, lift_run, H3.
Qed.

(** X7: [__init__] fails in three ways only: with [MissingAttr], with the
    [TypeError] of a domain or login that is not a string, or with an error
    of [get_param]; in each case nothing was called and nothing changed. *)
Theorem X7_init_errors name attrslist key_ w e w' :
  __init__ name attrslist key_ w = (inl e, w') →
  w' = w ∧
  ((e = MissingAttr ∧
    ¬ (_byte_p2 (u"cn") ∈ _byte_p2 <$> attrslist ∧
       _byte_p2 (u"unicodePwd") ∈ _byte_p2 <$> attrslist)) ∨
   e = TypeError ∨
   ∃ k d, get_param k d = inl e).
Proof.
  intros Hinit. split.
  { pose proof (init_pure name attrslist key_ w) as Hw.
    by rewrite Hinit in Hw. }
  revert Hinit. unfold __init__. unfold_M. rewrite foldl_snoc_map. simpl.
  repeat (case_scrutinee; simpl; try done).
  all: intros [= <- _].
  all: try (right; right; eauto; fail).
  all: try (right; left; done).
  all: left; split; [done|]; intros [Hcn Hpw].
  all: repeat match goal with
         | H : negb (bool_decide _) = true |- _ =>
             apply negb_true_iff, bool_decide_eq_false in H
         | H : negb (bool_decide _) = false |- _ =>
             apply negb_false_iff, bool_decide_eq_true in H
         end; done.
Qed.

End more_init.

Lemma X5_credentials_from_environment_witness :
  binddn sample_self = u"Administrator" ++ u"@" ++ u"dc.ldapcherry.org" ∧
  get_param (Base := sample_base quiet) (u"login") None
    = inr (VStr (u"Administrator")).
Proof.
  destruct (X5_credentials_from_environment (base := sample_base quiet)
              _ _ _ _ _ _ sample_self_init) as (Hb & Hl & _).
  split; [exact Hb|exact Hl].
Defined.

Lemma X6_login_parameter_required_witness :
  os_environ (Base := base_with_environ config_without_login) !! u"AD_LOGIN"
    = Some (u"svc-ldapcherry") ∧
  __init__ (base := base_with_environ config_without_login) (u"ad")
    sample_attrlist (u"uid") empty_world = (inl (OtherError 1), empty_world).
Proof.
  split; [reflexivity|].
  exact (X6_login_parameter_required (base := base_with_environ config_without_login)
           (u"ad") sample_attrlist (u"uid") empty_world _ _ _
           eq_refl eq_refl eq_refl).
Defined.

Lemma X7_init_errors_witness :
  ¬ (u"cn" ∈ [u"cn"; u"sAMAccountName"] ∧
     u"unicodePwd" ∈ [u"cn"; u"sAMAccountName"]).
Proof.
  destruct (X7_init_errors (base := sample_base quiet) (u"ad")
              [u"cn"; u"sAMAccountName"] (u"uid") empty_world MissingAttr
              empty_world eq_refl) as (_ & [[_ H]|[H|(k & d & H)]]).
  - exact H.
  - discriminate H.
  - exfalso. revert H. unfold get_param, sample_base, lookup_param.
    repeat case_match; discriminate.
Defined.

(* ------------------------------------------------------------------ *)
(** ** Further properties: group references *)

Section more_groups.

Context {base : Base}.

Lemma commas_app (s t : pystr) : commas (s ++ t) = (commas s + commas t)%nat.
Proof. unfold commas. by rewrite List.filter_app, length_app. Qed.

Lemma builtin_names_without_comma :
  Forall (fun g => commas g = 0%nat) AD_BUILTIN_GROUPS.
Proof. apply (bool_decide_unpack _). by vm_compute. Qed.

(** A builtin name and another name never resolve to the same entry. *)
Lemma builtin_and_ordinary_apart (g1 g2 label basedn : pystr) :
  g1 ∈ AD_BUILTIN_GROUPS →
  u"cn=" ++ g1 ++ u"," ++ u"CN=Builtin," ++ basedn ≠
  u"cn=" ++ g2 ++ u"," ++ u"OU=Users,OU=" ++ label ++ u"," ++ basedn.
Proof.
  intros Hin Heq.
  pose proof builtin_names_without_comma as Hall.
  rewrite Forall_forall in Hall. specialize (Hall g1 Hin).
  rewrite !app_assoc in Heq. apply app_inv_tail in Heq.
  apply (f_equal commas) in Heq. rewrite !commas_app, Hall in Heq.
  change (commas (u"cn=")) with 0%nat in Heq.
  change (commas (u",")) with 1%nat in Heq.
  change (commas (u"CN=Builtin,")) with 1%nat in Heq.
  change (commas (u"OU=Users,OU=")) with 1%nat in Heq.
  lia.
Qed.

(** X8: on a backend that [__init__] returned, different group names
    resolve to different entries, so [_build_groupdn] maps a list without
    repetition to a list without repetition. *)
Theorem X8_group_references_distinct name attrslist key_ w self w' :
  __init__ name attrslist key_ w = (inr self, w') →
  (∀ g1 g2, _build_groupdn self [g1] = _build_groupdn self [g2] → g1 = g2) ∧
  (∀ groups, NoDup groups → NoDup (_build_groupdn self groups)) ∧
  (∀ groups, length (_build_groupdn self groups) = length groups).
Proof.
  intros Hinit.
  destruct (init_inv _ _ _ _ _ _ Hinit) as (_ & _ & Hu & Hg & Hb & _).
  assert (Hinj : ∀ g1 g2,
    u"cn=" ++ g1 ++ u"," ++
      (if bool_decide (g1 ∈ AD_BUILTIN_GROUPS) then builtin self else groupdn self) =
    u"cn=" ++ g2 ++ u"," ++
      (if bool_decide (g2 ∈ AD_BUILTIN_GROUPS) then builtin self else groupdn self) →
    g1 = g2).
  { intros g1 g2.
    destruct (bool_decide (g1 ∈ AD_BUILTIN_GROUPS)) eqn:E1;
      destruct (bool_decide (g2 ∈ AD_BUILTIN_GROUPS)) eqn:E2.
    - intros H. apply app_inv_head in H. by apply app_inv_tail in H.
    - rewrite Hb, Hg, Hu. intros H. exfalso.
      apply bool_decide_eq_true in E1.
      exact (builtin_and_ordinary_apart g1 g2 _ _ E1 H).
    - rewrite Hb, Hg, Hu. intros H. exfalso.
      apply bool_decide_eq_true in E2.
      exact (builtin_and_ordinary_apart g2 g1 _ _ E2 (eq_sym H)).
    - intros H. apply app_inv_head in H. by apply app_inv_tail in H. }
  split; [|split].
  - intros g1 g2. rewrite !_build_groupdn_map. cbn [fmap list_fmap].
    intros H. apply (f_equal (hd [])) in H. cbn [hd] in H. by apply Hinj.
  - intros groups Hnd. rewrite _build_groupdn_map.
    apply (NoDup_fmap_2_strong _); [|done]. intros g1 g2 _ _. apply Hinj.
  - intros groups. by rewrite _build_groupdn_map, length_fmap.
Qed.

End more_groups.

Lemma X8_group_references_distinct_witness :
  NoDup (_build_groupdn sample_self [u"Users"; u"users"; u"Administrators"]).
Proof.
  destruct (X8_group_references_distinct (base := sample_base quiet)
              _ _ _ _ _ _ sample_self_init) as (_ & Hnd & _).
  apply Hnd. apply (bool_decide_unpack _). by vm_compute.
Defined.

(* ------------------------------------------------------------------ *)
(** ** Further properties: sessions and searches *)

Section more_sessions.

Context {base : Base}.

Lemma unbinds_cons (c : client) (e : event) (tr : list event) :
  unbinds c (e :: tr) =
  ((if is_unbind_of c e then 1 else 0) + unbinds c tr)%nat.
Proof. unfold unbinds. cbn [List.filter]. by destruct (is_unbind_of c e). Qed.

Lemma is_unbind_of_same (c : client) r :
  is_unbind_of c (Ev (Call_unbind_s c) r) = true.
Proof. unfold is_unbind_of. cbn. by apply bool_decide_eq_true_2. Qed.

(** Count the [unbind_s] calls on [c] in an explicit list of events. *)
Ltac count_unbinds :=
  repeat (rewrite unbinds_cons; first [rewrite is_unbind_of_same | cbn [is_unbind_of ev_call]]);
  try reflexivity.

(** X9: [_search_group] leaves the heap alone and, provided
    [_exception_handler] raises, calls [unbind_s] exactly once on the
    session it bound, whether the search succeeds or fails; when the bind
    fails it calls nothing else. It returns exactly when neither the search
    nor [unbind_s] raises, and then returns what the search found. *)
Theorem X9_search_group_session self searchfilter groupdn_ w :
  (∀ t e, raises env t (Call_exception_handler e) ≠ None) →
  let c := length (trace w) in
  let t1 := trace w ++ [Ev Call_bind None] in
  let q := Call_search_s c groupdn_ SCOPE_SUBTREE (_byte_p2 searchfilter)
             [u"CN"] in
  let ub := Call_unbind_s c in
  let out := _search_group self searchfilter groupdn_ w in
  heap out.2 = heap w ∧
  ∃ new,
    trace out.2 = trace w ++ new ∧
    (∀ e, raises env (trace w) Call_bind = Some e →
          out.1 = inl e ∧ new = [Ev Call_bind (Some e)]) ∧
    (raises env (trace w) Call_bind = None → unbinds c new = 1%nat) ∧
    (∀ r, out.1 = inr r ↔
          raises env (trace w) Call_bind = None ∧
          raises env t1 q = None ∧
          raises env (t1 ++ [Ev q None]) ub = None ∧
          r = search_result env t1 q).
Proof.
  intros Hre. destruct w as [h t]. cbv zeta. cbn [trace heap].
  rewrite _search_group_run. cbv zeta.
  destruct (raises env t Call_bind) as [e0|] eqn:Hb.
  { split; [done|]. eexists. split; [done|]. split; [|split].
    - intros e [= <-]. done.
    - done.
    - intros r. split; [done|]. by intros (? & _). }
  destruct (raises env (t ++ [Ev Call_bind None]) _) as [e1|] eqn:Hq.
  - destruct (raises env _ (Call_unbind_s (length t))) as [e2|] eqn:Hu.
    { split; [done|]. cbn [fst snd trace]. rewrite <- !app_assoc. cbn [app].
      eexists. split; [done|]. split; [done|]. split.
      - intros _. by count_unbinds.
      - intros r. split; [done|]. by intros (_ & ? & _). }
    destruct (raises env _ (Call_exception_handler e1)) as [e3|] eqn:Hh.
    2:{ by destruct (Hre _ _ Hh). }
    split; [done|]. cbn [fst snd trace]. rewrite <- !app_assoc. cbn [app].
    eexists. split; [done|]. split; [done|]. split.
    + intros _. by count_unbinds.
    + intros r. split; [done|]. by intros (_ & ? & _).
  - split; [done|]. cbn [fst snd trace]. rewrite <- !app_assoc. cbn [app].
    eexists. split; [done|]. split; [done|]. split.
    + intros _. by count_unbinds.
    + intros r. destruct (raises env _ (Call_unbind_s (length t))) as [e2|] eqn:Hu.
      * split; [done|]. by intros (_ & _ & ? & _).
      * split; [by intros [= <-]|]. by intros (_ & _ & _ & ->).
Qed.

(** X10: if [_exception_handler] ever returned instead of raising, a failed
    search would make [_search_group] call [unbind_s] a second time on the
    session it has already closed, and then fail on its unassigned
    result. *)
Theorem X10_search_group_if_handler_returns self searchfilter groupdn_ w e :
  let c := length (trace w) in
  let t1 := trace w ++ [Ev Call_bind None] in
  let q := Call_search_s c groupdn_ SCOPE_SUBTREE (_byte_p2 searchfilter)
             [u"CN"] in
  let ub := Call_unbind_s c in
  let t3 := t1 ++ [Ev q (Some e); Ev ub None] in
  let t4 := t3 ++ [Ev (Call_exception_handler e) None] in
  raises env (trace w) Call_bind = None →
  raises env t1 q = Some e →
  raises env (t1 ++ [Ev q (Some e)]) ub = None →
  raises env t3 (Call_exception_handler e) = None →
  let out := _search_group self searchfilter groupdn_ w in
  trace out.2 = t4 ++ [Ev ub (raises env t4 ub)] ∧
  unbinds c (drop (length (trace w)) (trace out.2)) = 2%nat ∧
  out.1 = inl (match raises env t4 ub with
               | Some e' => e'
               | None => UnboundLocalError
               end).
Proof.
  destruct w as [h t]. cbv zeta. cbn [trace]. intros Hb Hq Hu Hh.
  rewrite _search_group_run. cbv zeta. rewrite Hb, Hq, Hu.
  repeat rewrite <- app_assoc in Hh. repeat rewrite <- app_assoc.
  cbn [app] in Hh |- *. rewrite !Hh. cbn [fst snd trace].
  split; [done|]. split.
  - rewrite drop_app_length. by count_unbinds.
  - by case_match.
Qed.

(** X11: [auth] leaves the heap alone and sends no modification. It calls
    [unbind_s] on its connection once when the bind succeeded or was
    rejected with [INVALID_CREDENTIALS]; when [_connect] fails, or when the
    bind fails in another way, it calls [unbind_s] not at all. *)
Theorem X11_auth_calls self username password w :
  let c := length (trace w) in
  let t1 := trace w ++ [Ev Call_connect None] in
  let b := Call_simple_bind_s c (_byte_p2 (username ++ u"@" ++ domain self))
             (_byte_p2 password) in
  let out := auth self username password w in
  heap out.2 = heap w ∧
  ∃ new,
    trace out.2 = trace w ++ new ∧
    sent_modifications new = [] ∧
    (length new ≤ 3)%nat ∧
    unbinds c new =
      match raises env (trace w) Call_connect, raises env t1 b with
      | None, None | None, Some (LDAPError INVALID_CREDENTIALS) => 1%nat
      | _, _ => 0%nat
      end.
Proof.
  destruct w as [h t]. cbv zeta. cbn [trace heap].
  rewrite auth_run. cbv zeta.
  destruct (raises env t Call_connect) as [e0|].
  { split; [done|]. eexists. split; [done|].
    split; [done|]. split; [cbn; lia|done]. }
  destruct (raises env _ (Call_simple_bind_s _ _ _)) as [e1|].
  - destruct e1 as [| | | | | | |[]|];
      (split; [done|]); cbn [fst snd trace]; rewrite <- !app_assoc; cbn [app];
      eexists; (split; [done|]); (split; [done|]); (split; [cbn; lia|]);
      by count_unbinds.
  - split; [done|]. cbn [fst snd trace]. rewrite <- !app_assoc. cbn [app].
    eexists. split; [done|]. split; [done|]. split; [cbn; lia|].
    by count_unbinds.
Qed.

(** X4: whatever the environment does, [_set_password] leaves the heap
    alone, makes at most two calls and never calls [unbind_s]: whenever the
    password can be encoded and the bind succeeds, the session it bound is
    still open when it returns or raises. *)
Theorem X4_set_password_session self name password by_cn w :
  let c := length (trace w) in
  let out := _set_password self name password by_cn w in
  heap out.2 = heap w ∧
  ∃ new,
    trace out.2 = trace w ++ new ∧
    (length new ≤ 2)%nat ∧
    (∀ c', unbinds c' new = 0%nat) ∧
    bound_from c new =
      match encode_utf_16_le (quote ++ password ++ quote),
            raises env (trace w) Call_bind with
      | inr _, None => [c]
      | _, _ => []
      end.
Proof.
  destruct w as [h t]. cbv zeta. cbn [trace heap].
  rewrite _set_password_run. cbv zeta.
  destruct (encode_utf_16_le _) as [e|wire].
  { split; [done|]. exists []. rewrite app_nil_r. split; [done|].
    split; [cbn; lia|]. split; [intros c'; reflexivity|reflexivity]. }
  destruct (raises env t Call_bind) as [e|].
  { split; [done|]. cbn [fst snd trace]. eexists. split; [done|].
    split; [cbn; lia|]. split; [|done]. intros c'. by count_unbinds. }
  split; [done|]. cbn [fst snd trace]. rewrite <- app_assoc. cbn [app].
  eexists. split; [done|]. split; [cbn; lia|]. split; [|done].
  intros c'. by count_unbinds.
Qed.

(** X20: once [add_user] has created the entry and bound its session, it
    calls [unbind_s] on that session at most once, and exactly when the
    modification of [UserAccountControl] went through: a password that
    cannot be encoded, a created entry without [cn] or a refused
    modification leaves the session open. When [add_user] returns, the
    session was closed. *)
Theorem X20_add_user_session self attrs w d password name cn :
  heap w !! attrs = Some d →
  d !! u"unicodePwd" = Some password →
  d !! u"sAMAccountName" = Some name →
  d !! u"cn" = Some cn →
  let create :=
    Call_super_add_user attrs
      (<[u"displayName" := cn]>
         (<[u"userPrincipalName" := name ++ u"@" ++ domain self]>
            (delete (u"unicodePwd") d))) in
  let c := S (length (trace w)) in
  let out := add_user self attrs w in
  raises env (trace w) create = None →
  raises env (trace w ++ [Ev create None]) Call_bind = None →
  ∃ new,
    trace out.2 = trace w ++ new ∧
    bound_from (length (trace w)) new = [c] ∧
    (unbinds c new ≤ 1)%nat ∧
    (unbinds c new = 1%nat ↔
       ∃ dn, Ev (Call_modify_s c dn
                   [(MOD_REPLACE, u"UserAccountControl", [u"512"])]) None
             ∈ new) ∧
    (out.1 = inr tt → unbinds c new = 1%nat).
Proof.
  destruct w as [h t]. cbn [heap trace]. intros Hd Hp Hn Hc. cbv zeta.
  intros Hcreate Hbind.
  rewrite (add_user_run self attrs h t d password name cn Hd Hp Hn Hc).
  cbv zeta. rewrite Hcreate, Hbind.
  rewrite length_app. cbn [length]. rewrite Nat.add_1_r.
  assert (Hnot : ∀ (l : list event) (P : Prop),
            (∀ dn, Ev (Call_modify_s (S (length t)) dn
                         [(MOD_REPLACE, u"UserAccountControl", [u"512"])]) None
                   ∉ l) →
            (0%nat = 1%nat ↔
             ∃ dn, Ev (Call_modify_s (S (length t)) dn
                         [(MOD_REPLACE, u"UserAccountControl", [u"512"])]) None
                   ∈ l)).
  { intros l _ Hl. split; [done|]. intros [dn Hin]. by destruct (Hl dn). }
  destruct (parent_writes env t _ !! u"cn") as [cn'|].
  2:{ cbn [fst snd trace]. rewrite <- app_assoc. cbn [app].
      eexists. split; [done|]. split; [done|].
      assert (unbinds (S (length t))
                [Ev (Call_super_add_user attrs
                       (<[u"displayName" := cn]>
                          (<[u"userPrincipalName" := name ++ u"@" ++ domain self]>
                             (delete (u"unicodePwd") d)))) None;
                 Ev Call_bind None] = 0%nat) as -> by count_unbinds.
      split; [lia|]. split; [|done]. apply (Hnot _ True). intros dn.
      rewrite !elem_of_cons, elem_of_nil. intros [H|[H|[]]]; discriminate H. }
  destruct (encode_utf_16_le _) as [e|wire].
  { cbn [fst snd trace]. rewrite <- app_assoc. cbn [app].
    eexists. split; [done|]. split; [done|].
    assert (unbinds (S (length t))
              [Ev (Call_super_add_user attrs
                     (<[u"displayName" := cn]>
                        (<[u"userPrincipalName" := name ++ u"@" ++ domain self]>
                           (delete (u"unicodePwd") d)))) None;
               Ev Call_bind None] = 0%nat) as -> by count_unbinds.
    split; [lia|]. split; [|done]. apply (Hnot _ True). intros dn.
    rewrite !elem_of_cons, elem_of_nil. intros [H|[H|[]]]; discriminate H. }
  destruct (raises env _ (Call_modify_s _ _ [(MOD_REPLACE, u"unicodePwd", _)]))
    as [e|].
  { cbn [fst snd trace]. repeat rewrite <- app_assoc. cbn [app].
    eexists. split; [done|]. split; [done|].
    match goal with |- context [unbinds ?c ?l] =>
      assert (unbinds c l = 0%nat) as -> by count_unbinds end.
    split; [lia|]. split; [|done]. apply (Hnot _ True). intros dn.
    rewrite !elem_of_cons, elem_of_nil. intros [H|[H|[H|[]]]]; discriminate H. }
  destruct (raises env _ (Call_modify_s _ _ [(MOD_REPLACE, u"UserAccountControl", _)]))
    as [e|].
  { cbn [fst snd trace]. repeat rewrite <- app_assoc. cbn [app].
    eexists. split; [done|]. split; [done|].
    match goal with |- context [unbinds ?c ?l] =>
      assert (unbinds c l = 0%nat) as -> by count_unbinds end.
    split; [lia|]. split; [|done]. apply (Hnot _ True). intros dn.
    rewrite !elem_of_cons, elem_of_nil.
    intros [H|[H|[H|[H|[]]]]]; discriminate H. }
  cbn [fst snd trace]. repeat rewrite <- app_assoc. cbn [app].
  eexists. split; [done|]. split; [done|].
  match goal with |- context [unbinds ?c ?l] =>
    assert (unbinds c l = 1%nat) as -> by count_unbinds end.
  split; [lia|]. split; [|done]. split; [|done]. intros _.
  eexists. rewrite !elem_of_cons. right. right. right. by left.
Qed.

End more_sessions.

Lemma X9_search_group_session_witness :
  _search_group (base := sample_base refusing_searches) sample_self
    (u"(member=CN=jdoe)") (groupdn sample_self) empty_world
  = (inl (LDAPError NO_SUCH_OBJECT),
     World ∅ [
       Ev Call_bind None;
       Ev (Call_search_s 0 (groupdn sample_self) SCOPE_SUBTREE
             (u"(member=CN=jdoe)") [u"CN"]) (Some (LDAPError NO_SUCH_OBJECT));
       Ev (Call_unbind_s 0) None;
       Ev (Call_exception_handler (LDAPError NO_SUCH_OBJECT))
          (Some (LDAPError NO_SUCH_OBJECT))]) ∧
  unbinds 0
    (trace (_search_group (base := sample_base refusing_searches) sample_self
              (u"(member=CN=jdoe)") (groupdn sample_self) empty_world).2)
  = 1%nat.
Proof.
  split; [reflexivity|].
  destruct (X9_search_group_session (base := sample_base refusing_searches)
              sample_self (u"(member=CN=jdoe)") (groupdn sample_self)
              empty_world)
    as (_ & new & Htrace & _ & Hub & _).
  - intros t e. discriminate.
  - cbn [trace empty_world app] in Htrace. rewrite Htrace.
    exact (Hub eq_refl).
Defined.

Lemma X10_search_group_if_handler_returns_witness :
  (_search_group (base := sample_base swallowing_handler) sample_self
     (u"(member=CN=jdoe)") (groupdn sample_self) empty_world).1
  = inl UnboundLocalError.
Proof.
  exact (proj2 (proj2
    (X10_search_group_if_handler_returns (base := sample_base swallowing_handler)
       sample_self (u"(member=CN=jdoe)") (groupdn sample_self) empty_world
       (LDAPError NO_SUCH_OBJECT) eq_refl eq_refl eq_refl eq_refl))).
Defined.

Lemma X20_add_user_session_witness :
  unbinds 1 (trace (add_user (base := sample_base quiet) sample_self 0
                      sample_world).2) = 1%nat.
Proof.
  destruct (X20_add_user_session (base := sample_base quiet) sample_self 0%nat
              sample_world sample_attrs (u"s3cret") (u"jdoe") (u"John Doe")
              eq_refl eq_refl eq_refl eq_refl eq_refl eq_refl)
    as (new & Htrace & _ & _ & _ & Hret).
  cbn [sample_world trace app] in Htrace. rewrite Htrace.
  apply Hret. vm_compute. reflexivity.
Defined.

(* ------------------------------------------------------------------ *)
(** ** Further properties: the groups of a user *)

Section more_get_groups.

Context {base : Base}.

(** The loop of [get_groups] stops at the first entry without a [cn]. *)
Lemma for_in_group_names_fails (good rest : list entry) (e : entry)
    (acc : list pystr) w :
  Forall (fun e => is_Some (first_cn e)) good →
  first_cn e = None →
  for_in (good ++ e :: rest)
    (fun ret e => cn ← entry_cn e; mret (ret ++ [_uni cn])) acc w =
  (inl (match e.2 !! u"cn" with
        | None => KeyError (u"cn")
        | Some _ => IndexError
        end), w).
Proof.
  intros Hgood He. revert acc.
  induction Hgood as [|e' good [v Hv] _ IH]; intros acc; cbn [for_in app].
  - rewrite bind_run, bind_run. unfold entry_cn. unfold first_cn in He.
    by destruct (e.2 !! u"cn") as [[|v vs]|].
  - rewrite bind_run, bind_run.
    assert (entry_cn e' w = (inr v, w)) as ->.
    { unfold entry_cn. unfold first_cn in Hv.
      destruct (e'.2 !! u"cn") as [[|v' vs]|]; by simplify_eq. }
    cbv beta iota zeta. rewrite ret_run. cbv beta iota zeta. apply IH.
Qed.

(** X12: when the user lookup fails, [get_groups] raises its error
    without binding a session or searching. *)
Theorem X12_get_groups_unknown_user self username w e :
  let gu := Call_get_user (_byte_p2 (escape_filter_chars username)) NO_ATTR in
  raises env (trace w) gu = Some e →
  get_groups self username w =
  (inl e, World (heap w) (trace w ++ [Ev gu (Some e)])).
Proof.
  destruct w as [h t]. cbv zeta. cbn [heap trace]. intros Hgu.
  unfold get_groups. cbv zeta. rewrite bind_run, _get_user_run. cbv zeta.
  by rewrite Hgu.
Qed.

(** X13: a search result that holds an entry without the attribute [cn]
    makes [get_groups] fail, with [KeyError] when the attribute is absent
    and with [IndexError] when it has no value; by then both searches were
    made and both sessions were closed. *)
Theorem X13_get_groups_entry_without_cn self username w good e rest :
  (∀ t q, raises env t q = None) →
  group_filter_tmpl self = u"(member=%(userdn)s)" →
  let user := escape_filter_chars username in
  let gu := Call_get_user (_byte_p2 user) NO_ATTR in
  let f := _byte_p2 (u"(member=" ++ user_dn env (trace w) gu ++ u")") in
  let t1 := trace w ++ [Ev gu None] in
  let q1 := Call_search_s (length t1) (groupdn self) SCOPE_SUBTREE f [u"CN"] in
  let t2 := t1 ++ [Ev Call_bind None] in
  let t3 := (t2 ++ [Ev q1 None]) ++ [Ev (Call_unbind_s (length t1)) None] in
  let q2 := Call_search_s (length t3) (builtin self) SCOPE_SUBTREE f [u"CN"] in
  let t4 := t3 ++ [Ev Call_bind None] in
  let t5 := (t4 ++ [Ev q2 None]) ++ [Ev (Call_unbind_s (length t3)) None] in
  let found := search_result env t2 q1 ++ search_result env t4 q2 in
  found = good ++ e :: rest →
  Forall (fun e => is_Some (first_cn e)) good →
  first_cn e = None →
  get_groups self username w =
  (inl (match e.2 !! u"cn" with
        | None => KeyError (u"cn")
        | Some _ => IndexError
        end),
   World (heap w)
     (t5 ++ [Ev (Call_logger DEBUG (backend_name self) user found) None])).
Proof.
  intros Hquiet Htmpl. destruct w as [h t]. cbv zeta. cbn [heap trace].
  intros Hfound Hgood He.
  rewrite (get_groups_run self username h t Hquiet Htmpl). cbv zeta.
  rewrite Hfound at 1. by apply for_in_group_names_fails.
Qed.

(** X14: provided [_exception_handler] raises, [get_groups] closes every
    session it binds exactly once, whichever of its calls fail. *)
Theorem X14_get_groups_sessions self username h :
  (∀ t e, raises env t (Call_exception_handler e) ≠ None) →
  group_filter_tmpl self = u"(member=%(userdn)s)" →
  scoped (trace (get_groups self username (World h [])).2) = true.
Proof.
  intros Hre Htmpl.
  assert (Hno : ∀ t e, raises env t (Call_exception_handler e) = None → False)
    by (intros t e H; exact (Hre t e H)).
  unfold get_groups. cbv zeta. rewrite bind_run, _get_user_run. cbv zeta.
  destruct (raises env [] _) as [e|]; [reflexivity|]. cbv beta iota zeta.
  rewrite bind_run, lift_run, Htmpl, format_member. cbv beta iota zeta.
  rewrite bind_run, _search_group_run. cbv zeta.
  repeat (case_scrutinee; cbv beta iota zeta); try reflexivity;
    try (exfalso; eapply Hno; eassumption).
  rewrite bind_run, _search_group_run. cbv zeta.
  repeat (case_scrutinee; cbv beta iota zeta); try reflexivity;
    try (exfalso; eapply Hno; eassumption).
  rewrite bind_run. unfold _logger. rewrite external_run.
  case_scrutinee; cbv beta iota zeta; [reflexivity|].
  rewrite for_in_group_names_world. reflexivity.
Qed.

End more_get_groups.

Lemma X12_get_groups_unknown_user_witness :
  get_groups (base := sample_base unknown_user) sample_self (u"nobody")
    empty_world =
  (inl (OtherError 2),
   World ∅ [Ev (Call_get_user (u"nobody") NO_ATTR) (Some (OtherError 2))]).
Proof.
  exact (X12_get_groups_unknown_user (base := sample_base unknown_user)
           sample_self (u"nobody") empty_world (OtherError 2) eq_refl).
Defined.

Lemma X13_get_groups_entry_without_cn_witness :
  (get_groups (base := sample_base referral_in_builtin) sample_self (u"jdoe")
     empty_world).1 = inl (KeyError (u"cn")).
Proof.
  rewrite (X13_get_groups_entry_without_cn (base := sample_base referral_in_builtin)
             sample_self (u"jdoe") empty_world
             [(u"CN=staff,OU=Users,OU=dc,dc=dc,DC=ldapcherry,DC=org",
               {[ u"cn" := [u"staff"] ]})]
             ([], ∅) []).
  - reflexivity.
  - intros t q. reflexivity.
  - reflexivity.
  - vm_compute. reflexivity.
  - repeat constructor. eexists. reflexivity.
  - reflexivity.
Defined.

Lemma X14_get_groups_sessions_witness :
  scoped (trace (get_groups (base := sample_base refusing_searches) sample_self
                   (u"jdoe") (World ∅ [])).2) = true.
Proof.
  apply (X14_get_groups_sessions (base := sample_base refusing_searches)).
  - intros t e. discriminate.
  - reflexivity.
Defined.

(* ------------------------------------------------------------------ *)
(** ** Further properties: creating users and setting attributes *)

Section more_users.

Context {base : Base}.

(** X15: on a mapping that lacks a key it reads, [add_user] raises
    [KeyError] without calling anything, but not without effect: when
    ["sAMAccountName"] is missing the password is already gone from the
    caller's mapping, and when only ["cn"] is missing the principal name has
    been added as well. *)
Theorem X15_add_user_incomplete_mapping self attrs w d :
  heap w !! attrs = Some d →
  let out := add_user self attrs w in
  match d !! u"unicodePwd", d !! u"sAMAccountName", d !! u"cn" with
  | None, _, _ => out = (inl (KeyError (u"unicodePwd")), w)
  | Some _, None, _ =>
      out = (inl (KeyError (u"sAMAccountName")),
             World (<[attrs := delete (u"unicodePwd") d]> (heap w)) (trace w))
  | Some _, Some name, None =>
      out = (inl (KeyError (u"cn")),
             World (<[attrs := <[u"userPrincipalName" := name ++ u"@" ++ domain self]>
                                 (delete (u"unicodePwd") d)]> (heap w))
                   (trace w))
  | Some _, Some name, Some cn =>
      let create :=
        Call_super_add_user attrs
          (<[u"displayName" := cn]>
             (<[u"userPrincipalName" := name ++ u"@" ++ domain self]>
                (delete (u"unicodePwd") d))) in
      Ev create (raises env (trace w) create) ∈ trace out.2
  end.
Proof.
  destruct w as [h t]. cbn [heap trace]. intros Hd. cbv zeta.
  destruct (d !! u"unicodePwd") as [password|] eqn:Hp.
  2:{ unfold add_user.
      by rewrite bind_run, (dict_getitem_run attrs _ h t d Hd), Hp. }
  destruct (d !! u"sAMAccountName") as [name|] eqn:Hn.
  2:{ unfold add_user.
      rewrite bind_run, (dict_getitem_run attrs _ h t d Hd), Hp.
      cbv beta iota zeta.
      rewrite bind_run, (dict_delitem_run attrs _ h t d Hd), Hp.
      cbv beta iota zeta.
      rewrite bind_run, (dict_getitem_run attrs _ _ t _ (lookup_insert_eq _ _ _)).
      by rewrite lookup_delete_ne, Hn by apply key_pwd_sam. }
  destruct (d !! u"cn") as [cn|] eqn:Hc.
  - rewrite (add_user_run self attrs h t d password name cn Hd Hp Hn Hc).
    cbv zeta.
    repeat (case_scrutinee; cbn [snd trace]);
      rewrite ?elem_of_app, ?list_elem_of_singleton; tauto.
  - unfold add_user.
    rewrite bind_run, (dict_getitem_run attrs _ h t d Hd), Hp.
    cbv beta iota zeta.
    rewrite bind_run, (dict_delitem_run attrs _ h t d Hd), Hp.
    cbv beta iota zeta.
    rewrite bind_run, (dict_getitem_run attrs _ _ t _ (lookup_insert_eq _ _ _)).
    rewrite lookup_delete_ne, Hn by apply key_pwd_sam. cbv beta iota zeta.
    rewrite bind_run, lift_run, format_upn. cbv beta iota zeta.
    rewrite bind_run, (dict_setitem_run attrs _ _ _ t _ (lookup_insert_eq _ _ _)).
    rewrite insert_insert_eq. cbv beta iota zeta.
    rewrite bind_run, (dict_getitem_run attrs _ _ t _ (lookup_insert_eq _ _ _)).
    by rewrite lookup_insert_ne, lookup_delete_ne, Hc
      by (apply key_upn_cn || apply key_pwd_cn).
Qed.

(** X16: a password that holds a surrogate cannot be encoded.
    [_set_password] then raises [UnicodeEncodeError] before it calls
    anything; [add_user] raises it after the entry was created and the
    session was bound, sends no modification and does not unbind. *)
Theorem X16_unencodable_password self attrs w d password name cn cn' :
  heap w !! attrs = Some d →
  d !! u"unicodePwd" = Some password →
  d !! u"sAMAccountName" = Some name →
  d !! u"cn" = Some cn →
  Exists (fun c => is_surrogate c = true) password →
  let create :=
    Call_super_add_user attrs
      (<[u"displayName" := cn]>
         (<[u"userPrincipalName" := name ++ u"@" ++ domain self]>
            (delete (u"unicodePwd") d))) in
  raises env (trace w) create = None →
  raises env (trace w ++ [Ev create None]) Call_bind = None →
  parent_writes env (trace w) create !! u"cn" = Some cn' →
  (∀ dn by_cn w0,
     _set_password self dn password by_cn w0 = (inl UnicodeEncodeError, w0)) ∧
  (add_user self attrs w).1 = inl UnicodeEncodeError ∧
  trace (add_user self attrs w).2 =
    trace w ++ [Ev create None; Ev Call_bind None] ∧
  leaked (drop (length (trace w)) (trace (add_user self attrs w).2)) = [1%nat].
Proof.
  destruct w as [h t]. cbn [heap trace].
  intros Hd Hp Hn Hc Hsur Hcreate Hbind Hcn'.
  assert (Henc : encode_utf_16_le (quote ++ password ++ quote)
                 = inl UnicodeEncodeError).
  { apply encode_utf_16_le_surrogate.
    apply Exists_app. right. apply Exists_app. by left. }
  split.
  { intros dn by_cn [h0 t0]. rewrite _set_password_run. cbv zeta.
    by rewrite Henc. }
  rewrite (add_user_run self attrs h t d password name cn Hd Hp Hn Hc).
  cbv zeta. rewrite Hcreate, Hbind, Hcn', Henc.
  cbn [fst snd trace]. rewrite <- app_assoc. cbn [app].
  split; [done|]. split; [done|]. by rewrite drop_app_length.
Qed.

(** X17: when the mapping holds a password and nothing fails,
    [set_attrs] looks the user up, binds, replaces [unicodePwd] on the
    entry that the lookup returned, and then hands the generic backend the
    mapping without the password; it never unbinds. *)
Theorem X17_set_attrs_with_password self username attrs w d password wire :
  heap w !! attrs = Some d →
  d !! u"unicodePwd" = Some password →
  encode_utf_16_le (quote ++ password ++ quote) = inr wire →
  (∀ t q, raises env t q = None) →
  let gu := Call_get_user (_byte_p2 username) NO_ATTR in
  let c := S (length (trace w)) in
  let out := set_attrs self username attrs w in
  out.1 = inr tt ∧
  trace out.2 = trace w ++ [
    Ev gu None;
    Ev Call_bind None;
    Ev (Call_modify_s c (_byte_p2 (user_dn env (trace w) gu))
          [(MOD_REPLACE, u"unicodePwd", [wire])]) None;
    Ev (Call_super_set_attrs username attrs (delete (u"unicodePwd") d)) None
  ] ∧
  leaked (drop (length (trace w)) (trace out.2)) = [1%nat].
Proof.
  destruct w as [h t]. cbn [heap trace]. intros Hd Hp Henc Hquiet. cbv zeta.
  rewrite (set_attrs_run self username attrs h t d password Hd Hp). cbv zeta.
  rewrite Hquiet, _set_password_run. cbv zeta. rewrite Henc, !Hquiet.
  unfold super_set_attrs.
  rewrite (with_dict_run attrs _ _ _ _ (lookup_insert_eq _ _ _)), Hquiet.
  cbn [fst snd trace]. repeat rewrite <- app_assoc. cbn [app].
  rewrite length_app. cbn [length]. rewrite Nat.add_1_r.
  split; [done|]. split; [done|]. by rewrite drop_app_length.
Qed.


(** X19: when the mapping holds no password, [set_attrs] does nothing but
    call the generic backend on the unchanged mapping: no lookup, no bind,
    no modification. *)
Theorem X19_set_attrs_without_password self username attrs w d :
  heap w !! attrs = Some d →
  d !! u"unicodePwd" = None →
  let delegate := Call_super_set_attrs username attrs d in
  set_attrs self username attrs w =
  (match raises env (trace w) delegate with
   | Some e => inl e
   | None => inr tt
   end,
   World (<[attrs := parent_writes env (trace w) delegate]> (heap w))
         (trace w ++ [Ev delegate (raises env (trace w) delegate)])).
Proof.
  destruct w as [h t]. cbn [heap trace]. intros Hd Hp. cbv zeta.
  rewrite (set_attrs_run_no_password self username attrs h t d Hd Hp).
  unfold super_set_attrs. by rewrite (with_dict_run attrs _ h t d Hd).
Qed.

End more_users.

(* ------------------------------------------------------------------ *)
(** ** Further properties at the sample directory *)

Lemma X15_add_user_incomplete_mapping_witness :
  add_user (base := sample_base quiet) sample_self 0
    (world_with attrs_without_cn) =
  (inl (KeyError (u"cn")),
   World {[ 0%nat := list_to_map [
              (u"sAMAccountName", u"jdoe");
              (u"userPrincipalName", u"jdoe@dc.ldapcherry.org")] ]} []).
Proof.
  rewrite (X15_add_user_incomplete_mapping (base := sample_base quiet)
             sample_self 0%nat (world_with attrs_without_cn) attrs_without_cn
             eq_refl).
  vm_compute. reflexivity.
Defined.

Lemma X16_unencodable_password_witness :
  (add_user (base := sample_base quiet) sample_self 0
     (world_with attrs_with_lone_surrogate)).1 = inl UnicodeEncodeError.
Proof.
  refine (proj1 (proj2
    (X16_unencodable_password (base := sample_base quiet) sample_self 0%nat
       (world_with attrs_with_lone_surrogate) attrs_with_lone_surrogate
       [0xD800] (u"jdoe") (u"John Doe") (u"John Doe")
       eq_refl eq_refl eq_refl eq_refl _ eq_refl eq_refl eq_refl))).
  apply Exists_cons_hd. reflexivity.
Defined.

Lemma X17_set_attrs_with_password_witness :
  let out := set_attrs (base := sample_base quiet) sample_self (u"jdoe") 0
               sample_world in
  out.1 = inr tt ∧
  trace out.2 = [
    Ev (Call_get_user (u"jdoe") NO_ATTR) None;
    Ev Call_bind None;
    Ev (Call_modify_s 1
          (u"CN=jdoe,OU=Users,OU=dc,dc=dc,DC=ldapcherry,DC=org")
          [(MOD_REPLACE, u"unicodePwd",
            [[34; 0; 115; 0; 51; 0; 99; 0; 114; 0; 101; 0; 116; 0; 34; 0]])])
       None;
    Ev (Call_super_set_attrs (u"jdoe") 0 attrs_without_password) None
  ] ∧
  leaked (trace out.2) = [1%nat].
Proof.
  exact (X17_set_attrs_with_password (base := sample_base quiet) sample_self
           (u"jdoe") 0%nat sample_world sample_attrs (u"s3cret") _
           eq_refl eq_refl eq_refl (fun _ _ => eq_refl)).
Defined.


Lemma X19_set_attrs_without_password_witness :
  set_attrs (base := sample_base quiet) sample_self (u"jdoe") 0
    (world_with attrs_without_password) =
  (inr tt,
   World {[ 0%nat := attrs_without_password ]}
     [Ev (Call_super_set_attrs (u"jdoe") 0 attrs_without_password) None]).
Proof.
  rewrite (X19_set_attrs_without_password (base := sample_base quiet)
             sample_self (u"jdoe") 0%nat (world_with attrs_without_password)
             attrs_without_password eq_refl eq_refl).
  vm_compute. reflexivity.
Defined.
